(** * sql_to_ibis: the expression builder and its clause objects

    A shallow embedding of
      - sql_to_ibis/sql/sql_clause_objects.py  (RowRangeClause)
      - sql_to_ibis/parsing/transformers.py    (num_eval, TransformerBaseClass,
                                                InternalTransformer)
    Python exceptions are values of [Exception]; a function that can raise
    returns a [result].  Dictionaries are stdpp [gmap]s, Python sets are
    [gset]s, Python integers are [Z], Python floats are binary64 [float]s. *)

From Stdlib Require Import ZArith NArith Ascii String Floats.
From stdpp Require Import base option strings pretty list gmap.

Set Warnings "-register-all".

Local Open Scope Z_scope.
Local Open Scope stdpp_scope.

(** ** Exceptions and results *)

Inductive Exception : Type :=
| AssertionError
| KeyError (key : string)
| IndexError
| AttributeError
| ValueError
| ZeroDivisionError
| OverflowError
| IbisTypeError
| EvalError (text : string)
| Exception_ (message : string).

Inductive result (A : Type) : Type :=
| Ok (a : A)
| Raise (e : Exception).
Arguments Ok {A} a.
Arguments Raise {A} e.

Definition bind {A B : Type} (r : result A) (k : A -> result B) : result B :=
  match r with
  | Ok a => k a
  | Raise e => Raise e
  end.

Notation "'let*' x := r 'in' k" := (bind r (fun x => k))
  (at level 10, x pattern, r at level 100, k at level 200).

(** [d[k]] on a dictionary keyed by strings. *)
Definition getitem {V : Type} (d : gmap string V) (k : string) : result V :=
  match d !! k with
  | Some v => Ok v
  | None => Raise (KeyError k)
  end.

Definition is_Ok {A : Type} (r : result A) : Prop :=
  match r with Ok _ => True | Raise _ => False end.

(** [l[i]] on a list. *)
Definition index {A : Type} (l : list A) (i : nat) : result A :=
  match l !! i with
  | Some a => Ok a
  | None => Raise IndexError
  end.

(** [str.lower()], on the ASCII letters. *)
Definition lower_ascii (c : ascii) : ascii :=
  let n := N_of_ascii c in
  if ((65 <=? n) && (n <=? 90))%N then ascii_of_N (n + 32) else c.

Fixpoint lower (s : string) : string :=
  match s with
  | EmptyString => EmptyString
  | String c rest => String (lower_ascii c) (lower rest)
  end.

(** * Clause objects (sql_clause_objects.py) *)

Module RowRangeClause.

(** [Optional[Union[int, tuple]]]: the bound of a window frame. *)
Inductive Bound : Type :=
| BoundInt (n : Z)
| BoundTuple (items : list Z).

(** The attributes [__init__] sets on the instance, and no other. *)
Record t : Type := mk {
  preceding : option Bound;
  following : option Bound
}.

Definition _row : string := "ROW".
Definition _range : string := "RANGE".
Definition _clause_types : list string := [_row; _range].

(** The text of [f"Type must be one of {self._clause_types}"]. *)
Definition type_message : string := "Type must be one of ['ROW', 'RANGE']".

(** The instance starts with no attribute; the membership test comes first
    and raises before any assignment. *)
Definition __init__ (clause_type : string) (preceding following : option Bound)
  : result t :=
  if bool_decide (clause_type ∈ _clause_types)
  then Ok (mk preceding following)
  else Raise (Exception_ type_message).

End RowRangeClause.

(** * Python numbers

    What [eval] returns on a numeric literal and what [+ - * /] do on [int]
    and [float] operands. *)

Module Python.

Inductive num : Type :=
| PyInt (z : Z)
| PyFloat (f : float).

(** [n/d >= 2^k], for [n, d > 0]. *)
Definition ratio_ge_pow2 (n d k : Z) : bool :=
  if 0 <=? k then d * 2 ^ k <=? n else d <=? n * 2 ^ (- k).

(** The [e] with [2^e <= n/d < 2^(e+1)], for [n, d > 0]. *)
Definition floor_log2_ratio (n d : Z) : Z :=
  let e0 := Z.log2 n - Z.log2 d in
  if ratio_ge_pow2 n d e0 then e0 else e0 - 1.

(** [n/d] rounded to the nearest integer, ties to even, for [d > 0]. *)
Definition round_half_even (n d : Z) : Z :=
  let q := n / d in
  match 2 * (n mod d) ?= d with
  | Lt => q
  | Gt => q + 1
  | Eq => if Z.even q then q else q + 1
  end.

(** The binary64 value nearest to [n/d] (ties to even) for [n, d > 0]: the
    mantissa has 53 bits, fewer below [2^-1022]; [None] when the rounded
    value does not fit the format. *)
Definition nearest_binary64 (n d : Z) : option float :=
  let e := floor_log2_ratio n d in
  let u := Z.max (e - 52) (-1074) in
  let m := if 0 <=? u then round_half_even n (d * 2 ^ u)
           else round_half_even (n * 2 ^ (- u)) d in
  if (1023 <? e) || ((e =? 1023) && (m =? 2 ^ 53)) then None
  else Some (Z.ldexp (PrimFloat.of_uint63 (Uint63.of_Z m)) u).

(** [float(z)]: the conversion applied to an [int] operand that meets a
    [float]; "int too large to convert to float" is an OverflowError. *)
Definition float_of_int (z : Z) : result float :=
  if z =? 0 then Ok PrimFloat.zero
  else match nearest_binary64 (Z.abs z) 1 with
       | Some f => Ok (if z <? 0 then PrimFloat.opp f else f)
       | None => Raise OverflowError
       end.

(** [a / b] on two [int]s (true division): correctly rounded, a [float]
    also when [b] divides [a]. *)
Definition int_true_divide (a b : Z) : result float :=
  let negate := xorb (a <? 0) (b <? 0) in
  if b =? 0 then Raise ZeroDivisionError
  else if a =? 0 then Ok (if negate then PrimFloat.neg_zero else PrimFloat.zero)
  else match nearest_binary64 (Z.abs a) (Z.abs b) with
       | Some f => Ok (if negate then PrimFloat.opp f else f)
       | None => Raise OverflowError
       end.

Definition as_float (x : num) : result float :=
  match x with
  | PyInt z => float_of_int z
  | PyFloat f => Ok f
  end.

Definition py_add (x y : num) : result num :=
  match x, y with
  | PyInt a, PyInt b => Ok (PyInt (a + b))
  | _, _ => let* a := as_float x in let* b := as_float y in
            Ok (PyFloat (PrimFloat.add a b))
  end.

Definition py_sub (x y : num) : result num :=
  match x, y with
  | PyInt a, PyInt b => Ok (PyInt (a - b))
  | _, _ => let* a := as_float x in let* b := as_float y in
            Ok (PyFloat (PrimFloat.sub a b))
  end.

Definition py_mul (x y : num) : result num :=
  match x, y with
  | PyInt a, PyInt b => Ok (PyInt (a * b))
  | _, _ => let* a := as_float x in let* b := as_float y in
            Ok (PyFloat (PrimFloat.mul a b))
  end.

Definition py_truediv (x y : num) : result num :=
  match x, y with
  | PyInt a, PyInt b => let* f := int_true_divide a b in Ok (PyFloat f)
  | _, _ => let* a := as_float x in let* b := as_float y in
            if PrimFloat.eqb b PrimFloat.zero then Raise ZeroDivisionError
            else Ok (PyFloat (PrimFloat.div a b))
  end.

(** *** [eval] on the text of a numeric token

    The decimal literals of Python's grammar: [decinteger] (a non-zero digit
    followed by digits, or zeros alone) gives an [int]; [pointfloat] and
    [exponentfloat] give the nearest [float], infinity past the format's
    range. Any other text is outside this evaluator and is reported as
    [EvalError]. *)

Definition is_digit (c : ascii) : bool :=
  let n := N_of_ascii c in ((48 <=? n) && (n <=? 57))%N.

Definition digit_value (c : ascii) : Z := Z.of_N (N_of_ascii c) - 48.

Definition digits_value (ds : list ascii) : Z :=
  fold_left (fun acc c => 10 * acc + digit_value c) ds 0.

(** The longest prefix of digits, and what follows it. *)
Fixpoint span_digits (l : list ascii) : list ascii * list ascii :=
  match l with
  | c :: rest =>
      if is_digit c
      then let (ds, tl) := span_digits rest in (c :: ds, tl)
      else ([], l)
  | [] => ([], [])
  end.

Definition is_e (c : ascii) : bool :=
  let n := N_of_ascii c in ((n =? 101) || (n =? 69))%N.

(** [exponent ::= ("e" | "E") ["+" | "-"] digitpart], up to the end of the
    text; no exponent at all counts as 0. *)
Definition parse_exponent (l : list ascii) : option Z :=
  match l with
  | [] => Some 0
  | c :: rest =>
      if is_e c then
        let (neg, rest') :=
          match rest with
          | s :: tl =>
              if (N_of_ascii s =? 45)%N then (true, tl)
              else if (N_of_ascii s =? 43)%N then (false, tl)
              else (false, rest)
          | [] => (false, rest)
          end in
        match span_digits rest' with
        | (d :: ds, []) =>
            let v := digits_value (d :: ds) in Some (if neg then - v else v)
        | _ => None
        end
      else None
  end.

(** The float nearest to [m * 10^k], for [m >= 0]. *)
Definition float_of_decimal (m k : Z) : float :=
  if m =? 0 then PrimFloat.zero
  else
    match (if 0 <=? k then nearest_binary64 (m * 10 ^ k) 1
           else nearest_binary64 m (10 ^ (- k))) with
    | Some f => f
    | None => PrimFloat.infinity
    end.

Definition decinteger (ds : list ascii) : bool :=
  match ds with
  | [] => false
  | c :: rest =>
      negb (N_of_ascii c =? 48)%N || forallb (fun d => (N_of_ascii d =? 48)%N) rest
  end.

Definition py_eval (text : string) : result num :=
  let (ip, rest) := span_digits (list_ascii_of_string text) in
  match rest with
  | [] => if decinteger ip then Ok (PyInt (digits_value ip))
          else Raise (EvalError text)
  | c :: rest1 =>
      if (N_of_ascii c =? 46)%N then
        let (fp, rest2) := span_digits rest1 in
        match ip ++ fp, parse_exponent rest2 with
        | _ :: _, Some e =>
            Ok (PyFloat (float_of_decimal (digits_value (ip ++ fp))
                                          (e - Z.of_nat (length fp))))
        | _, _ => Raise (EvalError text)
        end
      else
        match ip, parse_exponent rest with
        | _ :: _, Some e => Ok (PyFloat (float_of_decimal (digits_value ip) e))
        | _, _ => Raise (EvalError text)
        end
  end.

End Python.

(** * The backend (ibis) as the transformer sees it

    The transformer only builds backend expressions, so a backend call is
    recorded as a node of [Ibis]. [PyNone] is Python's [None], the value of
    a column that was never bound. *)

Inductive DataType : Type :=
| Int8 | Int16 | Int32 | Int64 | Float32 | Float64
| Boolean | String_ | Timestamp | Date | Time.

Inductive CmpOp : Type := OpEq | OpNe | OpGt | OpGe | OpLt | OpLe.

Inductive PyConst : Type :=
| CNum (n : Python.num)
| CStr (s : string)
| CDateTime (fields : list Z).

Inductive Ibis : Type :=
| PyNone
| Const (c : PyConst)
| TableColumn (table : string) (column : string) (dtype : DataType)
| Compare (op : CmpOp) (left right : Ibis)
| Between (arg lower upper : Ibis)
| IsIn (arg : Ibis) (values : list Ibis)
| NotIn (arg : Ibis) (values : list Ibis)
| Mean (arg : Ibis)
| Sum (arg : Ibis)
| Max (arg : Ibis)
| Min (arg : Ibis)
| Desc (arg : Ibis)
| Rank (arg : Ibis)
| DenseRank (arg : Ibis)
| Over (arg : Ibis) (order_by group_by : list Ibis)
| Cast (arg : Ibis) (to : DataType)
| CaseBuilder (cases : list (Ibis * Ibis)) (default : option Ibis)
| SearchedCase (cases : list (Ibis * Ibis)) (default : option Ibis).

(** Looking a method up on a value: [None] has none. *)
Definition receiver (v : Ibis) : result Ibis :=
  match v with
  | PyNone => Raise AttributeError
  | _ => Ok v
  end.

(** A backend table: its name and the declared type of each column. *)
Record TableExpr : Type := mkTableExpr {
  table_name : string;
  schema : gmap string DataType
}.

(** [table[column]]: ibis refuses a name the schema does not have. *)
Definition table_getitem (t : TableExpr) (column : string) : result Ibis :=
  match schema t !! column with
  | Some ty => Ok (TableColumn (table_name t) column ty)
  | None => Raise IbisTypeError
  end.

(** [builder.when(cond, value)], [builder.else_(value)] and [builder.end()]
    of [ibis.case()]: only a builder has them. *)
Definition case_when (b cond val : Ibis) : result Ibis :=
  match b with
  | CaseBuilder cases default => Ok (CaseBuilder (cases ++ [(cond, val)]) default)
  | _ => Raise AttributeError
  end.

Definition case_else_ (b val : Ibis) : result Ibis :=
  match b with
  | CaseBuilder cases _ => Ok (CaseBuilder cases (Some val))
  | _ => Raise AttributeError
  end.

Definition case_end (b : Ibis) : result Ibis :=
  match b with
  | CaseBuilder cases default => Ok (SearchedCase cases default)
  | _ => Raise AttributeError
  end.

(** * sql_objects: the value model *)

(** Modelled from the spec: the classes of literals in sql_objects, the
    module transformers.py imports its values from and which is absent:
    Literal and its subclasses Number, String and Date. *)
Inductive LiteralClass : Type := ClsLiteral | ClsNumber | ClsString | ClsDate.

(** Modelled from the spec: sql_objects.Column, "a name, its owning table,
    and the concrete backend reference to that column; carries an optional
    explicit type and an optional output alias", under the attribute names
    transformers.py reads and writes. *)
Record Column : Type := mkColumn {
  name : string;
  table : option string;
  value : Ibis;
  alias : option string;
  typename : option DataType
}.

(** [Column(name=...)]: nothing but the name is known yet. *)
Definition Column_ (name : string) : Column :=
  mkColumn name None PyNone None None.

(** Modelled from the spec: sql_objects.Value and its variants Literal,
    Column, Expression and Aggregate, each with the fields section 3 of the
    specification gives it. *)
Inductive Value : Type :=
| VLiteral (cls : LiteralClass) (value : Ibis) (alias : option string)
| VColumn (c : Column)
| VExpression (value : Ibis) (alias : option string)
| VAggregate (value : Ibis) (alias : option string) (typename : option DataType).

(** The attribute [.value] every variant has. *)
Definition Value_value (v : Value) : Ibis :=
  match v with
  | VLiteral _ x _ => x
  | VColumn c => value c
  | VExpression x _ => x
  | VAggregate x _ _ => x
  end.

(** Modelled from the spec: sql_objects.ValueWithPlan, the wrapper of a
    predicate, is absent. transformers.py only ever builds one from the
    backend value, [ValueWithPlan(value)], and reads that value back
    ([.value]); [ValueWithPlan_ v] stands for the object that call returns.
    The fingerprint the object reports is computed by the absent class and
    has no part here. *)
Record ValueWithPlan : Type := ValueWithPlan_ {
  vwp_value : Ibis
}.

(** Modelled from the spec: the entry of [column_to_dataframe_name], a table
    name or sql_objects.AmbiguousColumn, the marker "that records all tables
    carrying that name" in its attribute [tables]. *)
Inductive TableName : Type :=
| Named (table : string)
| AmbiguousColumn (tables : gset string).

(** Modelled from the spec: [Column.set_type], absent from the sources;
    "casting a bare Column mutates only the declared output type". *)
Definition set_type (c : Column) (ty : DataType) : Column :=
  mkColumn (name c) (table c) (value c) (alias c) (Some ty).

(** * transformers.py *)

(** The state of a transformer: the catalog maps it was given and, for an
    [InternalTransformer], the names of the tables in scope. *)
Record Transformer : Type := mkTransformer {
  dataframe_map : gmap string TableExpr;
  column_name_map : gmap string (gmap string string);
  column_to_dataframe_name : gmap string TableName;
  tables : list string
}.

Module TransformerBaseClass.

(** [get_table] on a table name: the last branch, [self.dataframe_map[frame_name]]. *)
Definition get_table (self : Transformer) (frame_name : string) : result TableExpr :=
  getitem (dataframe_map self) frame_name.

Definition ambiguous_message (column_name : string) : string :=
  "Ambiguous column reference: " +:+ column_name.

(** The column after the two assignments [column.value = ...] and
    [column.table = ...]; for the name [*] the column is left as it is. *)
Definition set_column_value (self : Transformer) (column : Column) : result Column :=
  if bool_decide (name column ≠ "*") then
    let* dataframe_name :=
      getitem (column_to_dataframe_name self) (lower (name column)) in
    match dataframe_name with
    | AmbiguousColumn _ => Raise (Exception_ (ambiguous_message (name column)))
    | Named dataframe_name =>
        let* dataframe := get_table self dataframe_name in
        let* names := getitem (column_name_map self) dataframe_name in
        let* column_true_name := getitem names (lower (name column)) in
        let* v := table_getitem dataframe column_true_name in
        Ok (mkColumn (name column) (Some dataframe_name) v
                     (alias column) (typename column))
    end
  else Ok column.

Definition column_name (self : Transformer) (name_list_format : list string)
  : result Column :=
  let name := String.concat "" name_list_format in
  set_column_value self (Column_ name).

(** The alias classes of parsing/aggregation_aliases.py, which is not among
    the sources: the five sets are taken as given. *)
Record AggregationAliases : Type := mkAliases {
  AVG_AGGREGATIONS : gset string;
  MAX_AGGREGATIONS : gset string;
  MIN_AGGREGATIONS : gset string;
  NUMERIC_AGGREGATIONS : gset string;
  SUM_AGGREGATIONS : gset string
}.

(** What ibis answers about a column: [isinstance(c, NumericColumn)] and the
    text of [c.type()]. *)
Record ColumnTyping : Type := mkColumnTyping {
  is_NumericColumn : Ibis -> bool;
  type_text : Ibis -> string
}.

Definition not_implemented_message (aggregation type : string) : string :=
  "Aggregation " +:+ aggregation +:+ " not implemented for column of type " +:+ type.

(** The part of [apply_ibis_aggregation] after the numeric block. *)
Definition max_min_or_raise (A : AggregationAliases) (T : ColumnTyping)
    (ibis_column : Ibis) (aggregation : string) : result Ibis :=
  if bool_decide (aggregation ∈ MAX_AGGREGATIONS A) then
    let* c := receiver ibis_column in Ok (Max c)
  else if bool_decide (aggregation ∈ MIN_AGGREGATIONS A) then
    let* c := receiver ibis_column in Ok (Min c)
  else
    let* c := receiver ibis_column in
    Raise (Exception_ (not_implemented_message aggregation (type_text T c))).

Definition apply_ibis_aggregation (A : AggregationAliases) (T : ColumnTyping)
    (ibis_column : Ibis) (aggregation : string) : result Ibis :=
  if bool_decide (aggregation ∈ NUMERIC_AGGREGATIONS A) then
    if negb (is_NumericColumn T ibis_column) then Raise AssertionError
    else if bool_decide (aggregation ∈ AVG_AGGREGATIONS A) then
      let* c := receiver ibis_column in Ok (Mean c)
    else if bool_decide (aggregation ∈ SUM_AGGREGATIONS A) then
      let* c := receiver ibis_column in Ok (Sum c)
    else max_min_or_raise A T ibis_column aggregation
  else max_min_or_raise A T ibis_column aggregation.

End TransformerBaseClass.

Module InternalTransformer.

(** An element of the [tables] argument: a [Subquery] object, or a name. *)
Inductive TableArg : Type :=
| Subquery (name : string)
| TableStr (name : string).

Definition table_label (t : TableArg) : string :=
  match t with
  | Subquery n => n
  | TableStr n => n
  end.

(** One turn of the loop [for column in column_to_dataframe_name] on the
    dictionary built so far. The second test, [table in self.tables], is
    false for a marker: the scope lists names only. *)
Definition init_step (tables : list string) (column : string) (table : TableName)
    (acc : result (gmap string TableName)) : result (gmap string TableName) :=
  let* m := acc in
  match table with
  | AmbiguousColumn candidates =>
      let* table_name := index tables 0 in
      if bool_decide (table_name ∈ candidates)
      then Ok (<[column := Named table_name]> m)
      else Ok m
  | Named t =>
      if bool_decide (t ∈ tables) then Ok (<[column := table]> m) else Ok m
  end.

(** Each turn writes its own key only, so the order in which the dictionary
    is walked does not show in the result. The [print] of the scope has no
    part in it. *)
Definition __init__ (tables : list TableArg)
    (dataframe_map : gmap string TableExpr)
    (column_name_map : gmap string (gmap string string))
    (column_to_dataframe_name : gmap string TableName) : result Transformer :=
  let tables := table_label <$> tables in
  let* scoped := map_fold (init_step tables) (Ok ∅) column_to_dataframe_name in
  Ok (mkTransformer dataframe_map column_name_map scoped tables).

(** ** Literal arithmetic *)

(** What a child of an arithmetic node can be: a token of the grammar, a
    number already folded, or anything else. *)
Inductive Arg : Type :=
| Token (text : string)
| IntArg (z : Z)
| FloatArg (f : float)
| OtherArg.

Definition num_eval (arg : Arg) : result Python.num :=
  match arg with
  | OtherArg => Raise AssertionError
  | Token text => Python.py_eval text
  | IntArg z => Ok (Python.PyInt z)
  | FloatArg f => Ok (Python.PyFloat f)
  end.

Definition mul (args : list Arg) : result Python.num :=
  let* arg1 := index args 0 in
  let* arg2 := index args 1 in
  let* a := num_eval arg1 in
  let* b := num_eval arg2 in
  Python.py_mul a b.

Definition add (args : list Arg) : result Python.num :=
  let* arg1 := index args 0 in
  let* arg2 := index args 1 in
  let* a := num_eval arg1 in
  let* b := num_eval arg2 in
  Python.py_add a b.

Definition sub (args : list Arg) : result Python.num :=
  let* arg1 := index args 0 in
  let* arg2 := index args 1 in
  let* a := num_eval arg1 in
  let* b := num_eval arg2 in
  Python.py_sub a b.

Definition div (args : list Arg) : result Python.num :=
  let* arg1 := index args 0 in
  let* arg2 := index args 1 in
  let* a := num_eval arg1 in
  let* b := num_eval arg2 in
  Python.py_truediv a b.

(** ** Aggregates *)

Definition sql_aggregation (A : TransformerBaseClass.AggregationAliases)
    (T : TransformerBaseClass.ColumnTyping)
    (aggregation : string) (column : Column) : result Value :=
  let* v := TransformerBaseClass.apply_ibis_aggregation A T (value column)
              (lower aggregation) in
  Ok (VAggregate v (alias column) (typename column)).

(** ** Comparisons, CASE, RANK

    [get_value], [get_plan_representation] and the rich comparisons are
    methods of sql_objects.Value, which is not among the sources: the
    functions below take them as given. *)

Section with_sql_objects.

Variable get_value : Value -> Ibis.
Variable get_plan_representation : Value -> string.
Variable richcmp : CmpOp -> Value -> Value -> Ibis.

Definition create_execution_plan_expression (expression1 expression2 : Value)
    (relationship : string) : string :=
  get_plan_representation expression1 +:+ relationship
    +:+ get_plan_representation expression2.

Definition compare_with (op : CmpOp) (expressions : list Value)
  : result ValueWithPlan :=
  let* e0 := index expressions 0 in
  let* e1 := index expressions 1 in
  Ok (ValueWithPlan_ (richcmp op e0 e1)).

Definition equals := compare_with OpEq.
Definition not_equals := compare_with OpNe.
Definition greater_than := compare_with OpGt.
Definition greater_than_or_equal := compare_with OpGe.
Definition less_than := compare_with OpLt.
Definition less_than_or_equal := compare_with OpLe.

Definition between (expressions : list Value) : result ValueWithPlan :=
  let* main_expression := index expressions 0 in
  let between_expressions := drop 1 expressions in
  let* main := receiver (Value_value main_expression) in
  let* lower_bound := index between_expressions 0 in
  let* upper_bound := index between_expressions 1 in
  Ok (ValueWithPlan_
        (Between main (Value_value lower_bound) (Value_value upper_bound))).

Definition _get_expression_values (expressions : list Value) : list Ibis :=
  get_value <$> expressions.

Definition in_expr (expressions : list Value) : result ValueWithPlan :=
  let in_list := _get_expression_values (drop 1 expressions) in
  let* e0 := index expressions 0 in
  let* main := receiver (Value_value e0) in
  Ok (ValueWithPlan_ (IsIn main in_list)).

Definition not_in_expr (expressions : list Value) : result ValueWithPlan :=
  let not_in_list := _get_expression_values (drop 1 expressions) in
  let* e0 := index expressions 0 in
  let* main := receiver (Value_value e0) in
  Ok (ValueWithPlan_ (NotIn main not_in_list)).

(** An element of [when_expressions]: the tuple [when_then] returns, or the
    value of the ELSE branch. *)
Inductive WhenExpression : Type :=
| WhenThen (condition result_value : Value)
| ElseValue (v : Value).

Definition case_step (case_expression : result Ibis) (when_expression : WhenExpression)
  : result Ibis :=
  let* b := case_expression in
  match when_expression with
  | WhenThen c v =>
      let conditional_boolean := get_value c in
      let conditional_value := get_value v in
      case_when b conditional_boolean conditional_value
  | ElseValue v =>
      let* b' := case_else_ b (get_value v) in
      case_end b'
  end.

Definition case_expression (when_expressions : list WhenExpression) : result Value :=
  let* built := fold_left case_step when_expressions (Ok (CaseBuilder [] None)) in
  Ok (VExpression built None).

(** A token of a window specification, by its type: ["order"] carries the
    pair [order_asc] or [order_desc] built, ["partition"] a column. *)
Inductive RankToken : Type :=
| OrderToken (column : Column) (ascending : bool)
| PartitionToken (column : Column)
| OtherToken (type : string).

Definition rank_step (st : list Ibis * list Ibis * Ibis) (token : RankToken)
  : list Ibis * list Ibis * Ibis :=
  let '(order_list, partition_list, rank_column) := st in
  match token with
  | OrderToken column ascending =>
      let ibis_value := get_value (VColumn column) in
      let rank_column :=
        match rank_column with PyNone => ibis_value | _ => rank_column end in
      let ibis_value := if negb ascending then Desc ibis_value else ibis_value in
      (order_list ++ [ibis_value], partition_list, rank_column)
  | PartitionToken column =>
      (order_list, partition_list ++ [value column], rank_column)
  | OtherToken _ => st
  end.

Definition get_rank_orders_and_partitions (tokens : list (list RankToken))
  : result (list Ibis * list Ibis * Ibis) :=
  let* expressions := index tokens 0 in
  Ok (fold_left rank_step expressions ([], [], PyNone)).

Definition apply_rank_function (first_column : Ibis) (rank_function : string)
  : result Ibis :=
  if bool_decide (rank_function ∈ ["rank"; "dense_rank"]) then
    if bool_decide (rank_function = "rank") then
      let* c := receiver first_column in Ok (Rank c)
    else
      let* c := receiver first_column in Ok (DenseRank c)
  else Raise AssertionError.

Definition rank (tokens : list (list RankToken)) (rank_function : string)
  : result Value :=
  let* found := get_rank_orders_and_partitions tokens in
  let '(orders, partitions, first_column) := found in
  let* ranked := apply_rank_function first_column rank_function in
  Ok (VExpression (Over ranked orders partitions) None).

Definition rank_expression (tokens : list (list RankToken)) : result Value :=
  rank tokens "rank".

Definition dense_rank_expression (tokens : list (list RankToken)) : result Value :=
  rank tokens "dense_rank".

End with_sql_objects.

(** ** Casts

    [to_ibis_type] and [TYPE_TO_SQL_TYPE] belong to conversions/conversions.py,
    which is not among the sources: both are taken as given. Columns are
    objects that [as_type] updates in place and hands back, so they live in
    a heap and are named by their address. *)

Definition deref (heap : gmap positive Column) (l : positive) : result Column :=
  match heap !! l with
  | Some c => Ok c
  | None => Raise (Exception_ "no such object")
  end.

Definition as_type (to_ibis_type : string -> result DataType)
    (heap : gmap positive Column) (column : positive) (typename : string)
  : result (gmap positive Column * positive) :=
  let* c := deref heap column in
  let* ty := to_ibis_type typename in
  Ok (<[column := set_type c ty]> heap, column).

Definition literal_cast (TYPE_TO_SQL_TYPE : gmap string LiteralClass)
    (to_ibis_type : string -> result DataType)
    (value_wrapper : Value) (given_type : string) : result Value :=
  let* new_type := getitem TYPE_TO_SQL_TYPE given_type in
  let* v := receiver (Value_value value_wrapper) in
  let* ty := to_ibis_type given_type in
  Ok (VLiteral new_type (Cast v ty) None).

End InternalTransformer.

(** * A catalog and an instance of the absent modules

    Three tables of the test-suite (a few columns each) with the catalog
    maps registration builds for them, and one instance of each function
    the transformer imports from modules that are not among the sources.
    They serve to run the transformer on concrete inputs. *)

Module Fixture.

Definition FOREST_FIRES : TableExpr :=
  mkTableExpr "FOREST_FIRES"
    (list_to_map [("temp", Float64); ("RH", Int64); ("wind", Float64);
                  ("month", String_); ("day", String_)]).

Definition DIGIMON_MON_LIST : TableExpr :=
  mkTableExpr "DIGIMON_MON_LIST"
    (list_to_map [("Digimon", String_); ("Type", String_);
                  ("Attribute", String_); ("Memory", Int64)]).

Definition DIGIMON_MOVE_LIST : TableExpr :=
  mkTableExpr "DIGIMON_MOVE_LIST"
    (list_to_map [("Move", String_); ("Type", String_);
                  ("Attribute", String_); ("Power", Int64)]).

Definition dataframe_map : gmap string TableExpr :=
  list_to_map [("FOREST_FIRES", FOREST_FIRES);
               ("DIGIMON_MON_LIST", DIGIMON_MON_LIST);
               ("DIGIMON_MOVE_LIST", DIGIMON_MOVE_LIST)].

(** table name -> (lower-case column name -> column name as registered) *)
Definition column_name_map : gmap string (gmap string string) :=
  list_to_map
    [("FOREST_FIRES",
      list_to_map [("temp", "temp"); ("rh", "RH"); ("wind", "wind");
                   ("month", "month"); ("day", "day")]);
     ("DIGIMON_MON_LIST",
      list_to_map [("digimon", "Digimon"); ("type", "Type");
                   ("attribute", "Attribute"); ("memory", "Memory")]);
     ("DIGIMON_MOVE_LIST",
      list_to_map [("move", "Move"); ("type", "Type");
                   ("attribute", "Attribute"); ("power", "Power")])].

Definition both_digimon : gset string :=
  {["DIGIMON_MON_LIST"; "DIGIMON_MOVE_LIST"]}.

(** lower-case column name -> its table, or the marker of an ambiguous name *)
Definition column_to_dataframe_name : gmap string TableName :=
  list_to_map
    [("temp", Named "FOREST_FIRES"); ("rh", Named "FOREST_FIRES");
     ("wind", Named "FOREST_FIRES"); ("month", Named "FOREST_FIRES");
     ("day", Named "FOREST_FIRES");
     ("digimon", Named "DIGIMON_MON_LIST"); ("memory", Named "DIGIMON_MON_LIST");
     ("move", Named "DIGIMON_MOVE_LIST"); ("power", Named "DIGIMON_MOVE_LIST");
     ("type", AmbiguousColumn both_digimon);
     ("attribute", AmbiguousColumn both_digimon)].

(** The transformer of the base class over the whole catalog. *)
Definition base_transformer : Transformer :=
  mkTransformer dataframe_map column_name_map column_to_dataframe_name [].

(** The scope of [... from digimon_mon_list join digimon_move_list ...]. *)
Definition digimon_join : list InternalTransformer.TableArg :=
  [InternalTransformer.TableStr "DIGIMON_MON_LIST";
   InternalTransformer.TableStr "DIGIMON_MOVE_LIST"].

Definition wind : Column :=
  mkColumn "wind" (Some "FOREST_FIRES") (TableColumn "FOREST_FIRES" "wind" Float64)
           None None.

Definition month : Column :=
  mkColumn "month" (Some "FOREST_FIRES")
           (TableColumn "FOREST_FIRES" "month" String_) None None.

Definition temp : Column :=
  mkColumn "temp" (Some "FOREST_FIRES") (TableColumn "FOREST_FIRES" "temp" Float64)
           None None.

Definition number (z : Z) : Value :=
  VLiteral ClsNumber (Const (CNum (Python.PyInt z))) None.

Definition text (s : string) : Value :=
  VLiteral ClsString (Const (CStr s)) None.

(** [get_value]: the backend form of a value. *)
Definition get_value (v : Value) : Ibis := Value_value v.

(** Modelled from the spec: [to_ibis_type], as the CAST rule of section 4.2
    lists the type keywords and their canonical backend types; "an
    unrecognized type name fails with a type-resolution error". *)
Definition to_ibis_type (keyword : string) : result DataType :=
  if bool_decide (keyword ∈ ["smallint"; "int16"]) then Ok Int16
  else if bool_decide (keyword ∈ ["int"; "int32"]) then Ok Int32
  else if bool_decide (keyword ∈ ["bigint"; "int64"]) then Ok Int64
  else if bool_decide (keyword ∈ ["float"; "float64"]) then Ok Float64
  else if bool_decide (keyword ∈ ["varchar"; "string"; "object"; "category"])
       then Ok String_
  else if bool_decide (keyword ∈ ["datetime64"; "timestamp"]) then Ok Timestamp
  else if bool_decide (keyword = "bool") then Ok Boolean
  else if bool_decide (keyword = "date") then Ok Date
  else if bool_decide (keyword = "time") then Ok Time
  else Raise (Exception_ ("unrecognized type " +:+ keyword)).

(** A table of literal classes by type keyword. *)
Definition TYPE_TO_SQL_TYPE : gmap string LiteralClass :=
  list_to_map [("int64", ClsNumber); ("float64", ClsNumber);
               ("varchar", ClsString); ("object", ClsString);
               ("date", ClsDate)].

(** Modelled from the spec: the alias classes, "SUM AVG MAX MIN and dialect
    synonyms", the numeric-only classes being the sum-like and avg-like. *)
Definition aliases : TransformerBaseClass.AggregationAliases :=
  TransformerBaseClass.mkAliases
    {["avg"; "mean"]} {["max"; "maximum"]} {["min"; "minimum"]}
    {["avg"; "mean"; "sum"]} {["sum"]}.

Definition numeric_dtype (ty : DataType) : bool :=
  match ty with
  | String_ | Timestamp | Date | Time => false
  | _ => true
  end.

Definition dtype_text (ty : DataType) : string :=
  match ty with
  | Int8 => "int8" | Int16 => "int16" | Int32 => "int32" | Int64 => "int64"
  | Float32 => "float32" | Float64 => "float64" | Boolean => "boolean"
  | String_ => "string" | Timestamp => "timestamp" | Date => "date"
  | Time => "time"
  end.

(** A table column is a [NumericColumn] when its declared type is numeric. *)
Definition typing : TransformerBaseClass.ColumnTyping :=
  TransformerBaseClass.mkColumnTyping
    (fun c => match c with TableColumn _ _ ty => numeric_dtype ty | _ => false end)
    (fun c => match c with TableColumn _ _ ty => dtype_text ty | _ => "unknown" end).

End Fixture.

(** * More handlers of InternalTransformer

    The token builders of the window specification, [when_then], [group_by],
    and the value an arithmetic handler hands to the node above it. *)

Module Handlers.

(** A number returned by [add], [sub], [mul] or [div], as the child of the
    enclosing arithmetic node. *)
Definition child_of_num (n : Python.num) : InternalTransformer.Arg :=
  match n with
  | Python.PyInt z => InternalTransformer.IntArg z
  | Python.PyFloat f => InternalTransformer.FloatArg f
  end.

(** [Token("order", (column_list[0], True))] *)
Definition order_asc (column_list : list Column)
  : result InternalTransformer.RankToken :=
  let* column := index column_list 0 in
  Ok (InternalTransformer.OrderToken column true).

(** [Token("order", (column, False))] *)
Definition order_desc (column : list Column)
  : result InternalTransformer.RankToken :=
  let* column := index column 0 in
  Ok (InternalTransformer.OrderToken column false).

(** [Token("partition", column)] *)
Definition partition_by (column_list : list Column)
  : result InternalTransformer.RankToken :=
  let* column := index column_list 0 in
  Ok (InternalTransformer.PartitionToken column).

(** [rank_form] hands its children on as they are. *)
Definition rank_form (form : list InternalTransformer.RankToken)
  : list InternalTransformer.RankToken := form.

(** [when_then]: the pair of its first two children. *)
Definition when_then (when_then_values : list Value)
  : result InternalTransformer.WhenExpression :=
  let* condition := index when_then_values 0 in
  let* result_value := index when_then_values 1 in
  Ok (InternalTransformer.WhenThen condition result_value).

(** [Token("group", str(column.name))]: the token type and its value. *)
Definition group_by (column : list Column) : result (string * string) :=
  let* column := index column 0 in
  Ok ("group", name column).

End Handlers.

(** * Properties *)

(** ** RowRangeClause *)

Lemma clause_type_cases (clause_type : string) :
  clause_type ∈ RowRangeClause._clause_types <->
  clause_type = "ROW" \/ clause_type = "RANGE".
Proof.
  unfold RowRangeClause._clause_types, RowRangeClause._row, RowRangeClause._range.
  rewrite !elem_of_cons, elem_of_nil. tauto.
Qed.

(** C10. Constructing a RowRangeClause succeeds exactly when clause_type is
    "ROW" or "RANGE"; any other string raises the "Type must be one of"
    exception and no object is built; on success the object holds the
    preceding and following bounds it was given, and the record has no
    field for the clause type. *)
Theorem RowRangeClause_init_spec (clause_type : string)
    (preceding following : option RowRangeClause.Bound) :
  (is_Ok (RowRangeClause.__init__ clause_type preceding following) <->
     clause_type = "ROW" \/ clause_type = "RANGE")
  /\ (forall obj, RowRangeClause.__init__ clause_type preceding following = Ok obj ->
        obj = RowRangeClause.mk preceding following
        /\ RowRangeClause.preceding obj = preceding
        /\ RowRangeClause.following obj = following)
  /\ (~ (clause_type = "ROW" \/ clause_type = "RANGE") ->
        RowRangeClause.__init__ clause_type preceding following
        = Raise (Exception_ "Type must be one of ['ROW', 'RANGE']")).
Proof.
  unfold RowRangeClause.__init__.
  rewrite <- clause_type_cases.
  case_bool_decide as Hin; simpl.
  - split; [tauto |]. split; [| tauto].
    intros obj [= <-]. auto.
  - split; [tauto |]. split; [intros obj; discriminate | reflexivity].
Qed.

(** ** Scope resolution: set_column_value, column_name, InternalTransformer.__init__ *)

(** The loop of [__init__] over a scope with a first table never raises, and
    every key of the result is decided by its own entry of the catalog. *)
Lemma init_fold_lookup (first : string) (rest : list string)
    (catalog : gmap string TableName) :
  exists scoped,
    map_fold (InternalTransformer.init_step (first :: rest)) (Ok ∅) catalog = Ok scoped
    /\ forall column,
         scoped !! column =
         match catalog !! column with
         | Some (AmbiguousColumn candidates) =>
             if bool_decide (first ∈ candidates) then Some (Named first) else None
         | Some (Named t) =>
             if bool_decide (t ∈ first :: rest) then Some (Named t) else None
         | None => None
         end.
Proof.
  apply (map_fold_weak_ind (fun r m =>
    exists scoped, r = Ok scoped /\ forall column,
      scoped !! column =
      match m !! column with
      | Some (AmbiguousColumn candidates) =>
          if bool_decide (first ∈ candidates) then Some (Named first) else None
      | Some (Named t) =>
          if bool_decide (t ∈ first :: rest) then Some (Named t) else None
      | None => None
      end)).
  - exists ∅. split; [reflexivity |]. intros column. by rewrite !lookup_empty.
  - intros i x m r Hi (scoped & -> & Hscoped).
    unfold InternalTransformer.init_step; simpl.
    destruct x as [t | candidates]; simpl; case_bool_decide as Hin;
      eexists; (split; [reflexivity |]); intros column;
      rewrite !lookup_insert;
      destruct (decide (i = column)) as [-> | Hne]; simpl;
      rewrite ?bool_decide_eq_true_2, ?bool_decide_eq_false_2 by assumption;
      try reflexivity; try apply Hscoped.
    + rewrite Hscoped, Hi. reflexivity.
    + rewrite Hscoped, Hi. reflexivity.
Qed.

(** [set_column_value], one dictionary at a time. *)
Lemma set_column_value_named (self : Transformer) (column : Column)
    (t : string) :
  name column <> "*" ->
  column_to_dataframe_name self !! lower (name column) = Some (Named t) ->
  TransformerBaseClass.set_column_value self column =
    (let* dataframe := getitem (dataframe_map self) t in
     let* names := getitem (column_name_map self) t in
     let* column_true_name := getitem names (lower (name column)) in
     let* v := table_getitem dataframe column_true_name in
     Ok (mkColumn (name column) (Some t) v (alias column) (typename column))).
Proof.
  intros Hstar Hlookup. unfold TransformerBaseClass.set_column_value.
  rewrite bool_decide_eq_true_2 by assumption.
  unfold getitem at 1. rewrite Hlookup. reflexivity.
Qed.

(** The ambiguous-reference error comes from the marker and from nothing else. *)
Lemma set_column_value_ambiguous_iff (self : Transformer) (column : Column) :
  TransformerBaseClass.set_column_value self column
    = Raise (Exception_ (TransformerBaseClass.ambiguous_message (name column)))
  <-> name column <> "*"
      /\ exists candidates,
           column_to_dataframe_name self !! lower (name column)
           = Some (AmbiguousColumn candidates).
Proof.
  unfold TransformerBaseClass.set_column_value, TransformerBaseClass.get_table.
  case_bool_decide as Hstar; [| split; [discriminate | tauto]].
  unfold getitem at 1.
  destruct (column_to_dataframe_name self !! lower (name column))
    as [[t | candidates] |] eqn:Hlookup; simpl.
  - split; [| intros (_ & ? & [=])].
    unfold getitem, table_getitem.
    destruct (dataframe_map self !! t); simpl; [| discriminate].
    destruct (column_name_map self !! t) as [names |]; simpl; [| discriminate].
    destruct (names !! lower (name column)); simpl; [| discriminate].
    destruct (schema _ !! _); discriminate.
  - split; [eauto | reflexivity].
  - split; [discriminate | intros (_ & ? & [=])].
Qed.

(** C2 (amended). The scoped transformer is always built when the scope has a
    first table; a name the catalog marks ambiguous is mapped to that first
    table when it is one of the candidates and is left out of the scoped map
    otherwise; so the scoped transformer never raises the ambiguous-reference
    error, and resolves such a name against the first table. The error is
    raised by set_column_value exactly when the map it reads holds the marker
    for the lower-cased name, as the map of the base class does. *)
Theorem scoped_ambiguous_name_takes_first_table
    (first : InternalTransformer.TableArg) (rest : list InternalTransformer.TableArg)
    (dm : gmap string TableExpr) (cnm : gmap string (gmap string string))
    (catalog : gmap string TableName) :
  exists self,
    InternalTransformer.__init__ (first :: rest) dm cnm catalog = Ok self
    /\ dataframe_map self = dm /\ column_name_map self = cnm
    /\ tables self = InternalTransformer.table_label <$> (first :: rest)
    /\ (forall column,
          column_to_dataframe_name self !! column =
          match catalog !! column with
          | Some (AmbiguousColumn candidates) =>
              if bool_decide (InternalTransformer.table_label first ∈ candidates)
              then Some (Named (InternalTransformer.table_label first)) else None
          | Some (Named t) =>
              if bool_decide (t ∈ tables self) then Some (Named t) else None
          | None => None
          end)
    /\ (forall column : Column,
          TransformerBaseClass.set_column_value self column
          <> Raise (Exception_ (TransformerBaseClass.ambiguous_message (name column))))
    /\ (forall (column : Column) candidates,
          name column <> "*" ->
          catalog !! lower (name column) = Some (AmbiguousColumn candidates) ->
          InternalTransformer.table_label first ∈ candidates ->
          TransformerBaseClass.set_column_value self column =
            (let t := InternalTransformer.table_label first in
             let* dataframe := getitem dm t in
             let* names := getitem cnm t in
             let* column_true_name := getitem names (lower (name column)) in
             let* v := table_getitem dataframe column_true_name in
             Ok (mkColumn (name column) (Some t) v (alias column) (typename column))))
    /\ (forall (base : Transformer) (column : Column),
          TransformerBaseClass.set_column_value base column
            = Raise (Exception_ (TransformerBaseClass.ambiguous_message (name column)))
          <-> name column <> "*"
              /\ exists candidates,
                   column_to_dataframe_name base !! lower (name column)
                   = Some (AmbiguousColumn candidates)).
Proof.
  unfold InternalTransformer.__init__. rewrite fmap_cons.
  destruct (init_fold_lookup (InternalTransformer.table_label first)
              (InternalTransformer.table_label <$> rest) catalog)
    as (scoped & -> & Hscoped).
  simpl. eexists. split; [reflexivity |]. simpl.
  repeat (split; [reflexivity |]).
  split; [exact Hscoped |].
  split; [| split; [| apply set_column_value_ambiguous_iff]].
  - intros column Hraise.
    apply set_column_value_ambiguous_iff in Hraise as (_ & candidates & Hlookup).
    simpl in Hlookup. rewrite Hscoped in Hlookup.
    destruct (catalog !! lower (name column)) as [[t | cs] |];
      try case_bool_decide; discriminate.
  - intros column candidates Hstar Hcatalog Hin.
    apply set_column_value_named; [assumption |]. simpl.
    rewrite Hscoped, Hcatalog. by rewrite bool_decide_eq_true_2.
Qed.

(** C2, as stated, fails: "type" is a column of both tables of the join, the
    catalog marks it ambiguous, and the scoped transformer resolves the bare
    name to the first table of the scope without any error. *)
Lemma ambiguous_name_resolved_without_error :
  Fixture.column_to_dataframe_name !! "type"
    = Some (AmbiguousColumn Fixture.both_digimon)
  /\ (let* self := InternalTransformer.__init__ Fixture.digimon_join
                     Fixture.dataframe_map Fixture.column_name_map
                     Fixture.column_to_dataframe_name in
      TransformerBaseClass.column_name self ["Type"])
     = Ok (mkColumn "Type" (Some "DIGIMON_MON_LIST")
                    (TableColumn "DIGIMON_MON_LIST" "Type" String_) None None).
Proof. split; vm_compute; reflexivity. Qed.

Lemma column_name_single (self : Transformer) (n : string) :
  TransformerBaseClass.column_name self [n]
  = TransformerBaseClass.set_column_value self (Column_ n).
Proof. reflexivity. Qed.

(** What a successful resolution of a column other than [*] went through. *)
Lemma set_column_value_Ok_inv (self : Transformer) (column resolved : Column) :
  name column <> "*" ->
  TransformerBaseClass.set_column_value self column = Ok resolved ->
  exists t dataframe names column_true_name ty,
    column_to_dataframe_name self !! lower (name column) = Some (Named t)
    /\ dataframe_map self !! t = Some dataframe
    /\ column_name_map self !! t = Some names
    /\ names !! lower (name column) = Some column_true_name
    /\ schema dataframe !! column_true_name = Some ty
    /\ resolved = mkColumn (name column) (Some t)
                    (TableColumn (table_name dataframe) column_true_name ty)
                    (alias column) (typename column).
Proof.
  intros Hstar. unfold TransformerBaseClass.set_column_value,
    TransformerBaseClass.get_table, getitem, table_getitem.
  rewrite bool_decide_eq_true_2 by assumption.
  destruct (column_to_dataframe_name self !! lower (name column))
    as [[t | candidates] |] eqn:H1; simpl; try discriminate.
  destruct (dataframe_map self !! t) as [dataframe |] eqn:H2; simpl; try discriminate.
  destruct (column_name_map self !! t) as [names |] eqn:H3; simpl; try discriminate.
  destruct (names !! lower (name column)) as [true_name |] eqn:H4; simpl;
    try discriminate.
  destruct (schema dataframe !! true_name) as [ty |] eqn:H5; simpl; try discriminate.
  intros [= <-]. by exists t, dataframe, names, true_name, ty.
Qed.

(** C9 (amended). Column lookup is case-insensitive: the key of every
    lookup is the lower-cased name, so two spellings with the same
    lower-case form resolve alike, to the same table and the same backend
    column; and the backend column attached to the resolved Column is the
    table's column under the original-case name the catalog recorded for
    that key. The resolved Column itself is named as the query spells it:
    its name, which labels it, does not take the catalog's case. *)
Theorem column_lookup_is_case_insensitive (self : Transformer)
    (spelling other : string) (resolved : Column) :
  lower spelling = lower other ->
  spelling <> "*" -> other <> "*" ->
  TransformerBaseClass.column_name self [spelling] = Ok resolved ->
  exists t dataframe names column_true_name ty,
    column_to_dataframe_name self !! lower spelling = Some (Named t)
    /\ dataframe_map self !! t = Some dataframe
    /\ column_name_map self !! t = Some names
    /\ names !! lower spelling = Some column_true_name
    /\ value resolved = TableColumn (table_name dataframe) column_true_name ty
    /\ table resolved = Some t
    /\ name resolved = spelling
    /\ TransformerBaseClass.column_name self [other]
       = Ok (mkColumn other (table resolved) (value resolved) None None).
Proof.
  intros Hlower Hstar Hstar' Hresolved.
  rewrite column_name_single in Hresolved.
  apply set_column_value_Ok_inv in Hresolved
    as (t & dataframe & names & true_name & ty & H1 & H2 & H3 & H4 & H5 & ->);
    [| assumption].
  simpl in *. exists t, dataframe, names, true_name, ty.
  repeat (split; [assumption || reflexivity |]).
  rewrite column_name_single.
  rewrite (set_column_value_named self (Column_ other) t); simpl;
    [| assumption | by rewrite <- Hlower].
  unfold getitem, table_getitem. rewrite H2, H3; simpl.
  rewrite <- Hlower, H4; simpl. rewrite H5. reflexivity.
Qed.

Lemma column_lookup_is_case_insensitive_witness :
  exists t dataframe names column_true_name ty,
    column_to_dataframe_name Fixture.base_transformer !! lower "rh" = Some (Named t)
    /\ dataframe_map Fixture.base_transformer !! t = Some dataframe
    /\ column_name_map Fixture.base_transformer !! t = Some names
    /\ names !! lower "rh" = Some column_true_name
    /\ TableColumn "FOREST_FIRES" "RH" Int64
       = TableColumn (table_name dataframe) column_true_name ty
    /\ Some "FOREST_FIRES" = Some t
    /\ "rh" = "rh"
    /\ TransformerBaseClass.column_name Fixture.base_transformer ["Rh"]
       = Ok (mkColumn "Rh" (Some "FOREST_FIRES")
                      (TableColumn "FOREST_FIRES" "RH" Int64) None None).
Proof.
  apply (column_lookup_is_case_insensitive Fixture.base_transformer "rh" "Rh"
           (mkColumn "rh" (Some "FOREST_FIRES")
                     (TableColumn "FOREST_FIRES" "RH" Int64) None None)).
  - vm_compute; reflexivity.
  - discriminate.
  - discriminate.
  - vm_compute; reflexivity.
Defined.

(** C9, as stated, fails on its conclusion that the label keeps the
    original case: the catalog records the column as "RH"; resolving the
    spelling "rh" binds the backend column "RH", and the resolved Column is
    named "rh", the spelling of the query, not "RH". *)
Lemma resolved_column_keeps_query_spelling :
  column_name_map Fixture.base_transformer !! "FOREST_FIRES"
    ≫= (fun names => names !! "rh") = Some "RH"
  /\ exists resolved,
       TransformerBaseClass.column_name Fixture.base_transformer ["rh"] = Ok resolved
       /\ value resolved = TableColumn "FOREST_FIRES" "RH" Int64
       /\ name resolved = "rh"
       /\ name resolved <> "RH".
Proof.
  split; [vm_compute; reflexivity |].
  eexists. split; [vm_compute; reflexivity |]. simpl.
  repeat split. discriminate.
Qed.

(** ** Literal arithmetic: num_eval, add, sub, mul, div *)

Lemma floor_log2_ratio_le (n d : Z) :
  0 < d -> Python.floor_log2_ratio n d <= Z.log2 n.
Proof.
  intros Hd. unfold Python.floor_log2_ratio.
  pose proof (Z.log2_nonneg d).
  destruct (Python.ratio_ge_pow2 n d (Z.log2 n - Z.log2 d)); lia.
Qed.

(** A quotient below [2^1023] is within the range of the format. *)
Lemma nearest_binary64_in_range (n d : Z) :
  0 < n < 2 ^ 1023 -> 0 < d -> is_Some (Python.nearest_binary64 n d).
Proof.
  intros [Hn Hlt] Hd. unfold Python.nearest_binary64.
  pose proof (floor_log2_ratio_le n d Hd) as Hle.
  assert (Z.log2 n < 1023) as Hlog by (apply Z.log2_lt_pow2; lia).
  set (e := Python.floor_log2_ratio n d) in *.
  replace (1023 <? e) with false by (symmetry; apply Z.ltb_ge; lia).
  replace (e =? 1023) with false by (symmetry; apply Z.eqb_neq; lia).
  simpl. eauto.
Qed.

Lemma int_true_divide_cases (a b : Z) :
  (b = 0 -> Python.int_true_divide a b = Raise ZeroDivisionError)
  /\ (b <> 0 ->
        (exists f, Python.int_true_divide a b = Ok f)
        \/ Python.int_true_divide a b = Raise OverflowError)
  /\ (b <> 0 -> Z.abs a < 2 ^ 1023 -> exists f, Python.int_true_divide a b = Ok f).
Proof.
  unfold Python.int_true_divide. split; [| split].
  - intros ->. reflexivity.
  - intros Hb. rewrite (proj2 (Z.eqb_neq b 0)) by assumption.
    destruct (a =? 0); [eauto |].
    destruct (Python.nearest_binary64 _ _); eauto.
  - intros Hb Ha. rewrite (proj2 (Z.eqb_neq b 0)) by assumption.
    destruct (a =? 0) eqn:Ha0; [eauto |].
    apply Z.eqb_neq in Ha0.
    destruct (nearest_binary64_in_range (Z.abs a) (Z.abs b)) as [f ->];
      [lia | lia | eauto].
Qed.

Lemma as_float_cases (x : Python.num) :
  (exists f, Python.as_float x = Ok f) \/ Python.as_float x = Raise OverflowError.
Proof.
  destruct x as [z | f]; simpl; [| eauto].
  unfold Python.float_of_int. destruct (z =? 0); [eauto |].
  destruct (Python.nearest_binary64 _ _); eauto.
Qed.

(** [+], [-] and [*] give a number, or fail converting an [int] operand. *)
Lemma py_arith_cases (x y : Python.num) :
  ((exists v, Python.py_add x y = Ok v) \/ Python.py_add x y = Raise OverflowError)
  /\ ((exists v, Python.py_sub x y = Ok v) \/ Python.py_sub x y = Raise OverflowError)
  /\ ((exists v, Python.py_mul x y = Ok v) \/ Python.py_mul x y = Raise OverflowError).
Proof.
  destruct (as_float_cases x) as [[fx Hx] | Hx], (as_float_cases y) as [[fy Hy] | Hy];
    destruct x, y; simpl in *;
    rewrite ?Hx, ?Hy; simpl; rewrite ?Hx, ?Hy; simpl; eauto 10;
    try discriminate.
Qed.

(** [/] gives a [float], or fails on a zero divisor or converting an [int]. *)
Lemma py_truediv_cases (x y : Python.num) :
  (exists f, Python.py_truediv x y = Ok (Python.PyFloat f))
  \/ Python.py_truediv x y = Raise ZeroDivisionError
  \/ Python.py_truediv x y = Raise OverflowError.
Proof.
  destruct x as [a | fa], y as [b | fb]; simpl.
  - destruct (Z.eq_dec b 0) as [Hb | Hb].
    + rewrite (proj1 (int_true_divide_cases a b) Hb). eauto.
    + destruct (proj1 (proj2 (int_true_divide_cases a b)) Hb) as [[f ->] | ->];
        simpl; eauto.
  - destruct (as_float_cases (Python.PyInt a)) as [[f Hf] | Hf]; simpl in Hf;
      rewrite Hf; simpl; [| eauto].
    destruct (PrimFloat.eqb fb PrimFloat.zero); eauto.
  - destruct (as_float_cases (Python.PyInt b)) as [[f Hf] | Hf]; simpl in Hf;
      rewrite Hf; simpl; [| eauto].
    destruct (PrimFloat.eqb f PrimFloat.zero); eauto.
  - destruct (PrimFloat.eqb fb PrimFloat.zero); eauto.
Qed.

(** C3 (amended). Arithmetic between two numeric literal tokens is carried out
    at once on the two numbers the tokens evaluate to: the handler returns a
    number, never a deferred expression, unless the operation itself raises.
    Two integer literals give the integer sum, difference and product. A
    division that returns gives a float, also for two integer literals; it
    raises ZeroDivisionError when the divisor is a literal zero, and an
    integer too large for a float raises OverflowError where it has to be
    converted. Two integer literals with a non-zero divisor and a dividend
    below 2^1023 in absolute value always divide to a float. *)
Theorem literal_arithmetic_is_folded (text1 text2 : string) (a b : Python.num) :
  Python.py_eval text1 = Ok a ->
  Python.py_eval text2 = Ok b ->
  let args := [InternalTransformer.Token text1; InternalTransformer.Token text2] in
  (InternalTransformer.add args = Python.py_add a b
   /\ InternalTransformer.sub args = Python.py_sub a b
   /\ InternalTransformer.mul args = Python.py_mul a b
   /\ InternalTransformer.div args = Python.py_truediv a b)
  /\ ((exists v, InternalTransformer.add args = Ok v)
      \/ InternalTransformer.add args = Raise OverflowError)
  /\ ((exists v, InternalTransformer.sub args = Ok v)
      \/ InternalTransformer.sub args = Raise OverflowError)
  /\ ((exists v, InternalTransformer.mul args = Ok v)
      \/ InternalTransformer.mul args = Raise OverflowError)
  /\ ((exists f, InternalTransformer.div args = Ok (Python.PyFloat f))
      \/ InternalTransformer.div args = Raise ZeroDivisionError
      \/ InternalTransformer.div args = Raise OverflowError)
  /\ (forall x y, a = Python.PyInt x -> b = Python.PyInt y ->
        InternalTransformer.add args = Ok (Python.PyInt (x + y))
        /\ InternalTransformer.sub args = Ok (Python.PyInt (x - y))
        /\ InternalTransformer.mul args = Ok (Python.PyInt (x * y))
        /\ (y = 0 -> InternalTransformer.div args = Raise ZeroDivisionError)
        /\ (y <> 0 -> Z.abs x < 2 ^ 1023 ->
              exists f, InternalTransformer.div args = Ok (Python.PyFloat f))).
Proof.
  intros H1 H2 args.
  assert (InternalTransformer.add args = Python.py_add a b
          /\ InternalTransformer.sub args = Python.py_sub a b
          /\ InternalTransformer.mul args = Python.py_mul a b
          /\ InternalTransformer.div args = Python.py_truediv a b) as Hfold.
  { unfold args, InternalTransformer.add, InternalTransformer.sub,
      InternalTransformer.mul, InternalTransformer.div; simpl.
    rewrite H1, H2; simpl. auto. }
  destruct Hfold as (Hadd & Hsub & Hmul & Hdiv).
  split; [auto |]. rewrite Hadd, Hsub, Hmul, Hdiv.
  destruct (py_arith_cases a b) as (Ha & Hs & Hm).
  repeat (split; [assumption |]).
  split; [apply py_truediv_cases |].
  intros x y -> ->. simpl.
  repeat (split; [reflexivity |]).
  destruct (int_true_divide_cases x y) as (Hzero & _ & Hfloat).
  split.
  - intros Hy. rewrite (Hzero Hy). reflexivity.
  - intros Hy Hx. destruct (Hfloat Hy Hx) as [f ->]. simpl. eauto.
Qed.

Lemma literal_arithmetic_is_folded_witness :
  InternalTransformer.div
    [InternalTransformer.Token "7"; InternalTransformer.Token "2"]
  = Ok (Python.PyFloat 3.5%float)
  /\ InternalTransformer.add
       [InternalTransformer.Token "7"; InternalTransformer.Token "2"]
     = Ok (Python.PyInt 9).
Proof.
  pose proof (literal_arithmetic_is_folded "7" "2" (Python.PyInt 7) (Python.PyInt 2)
                ltac:(vm_compute; reflexivity) ltac:(vm_compute; reflexivity))
    as (_ & _ & _ & _ & _ & Hint).
  destruct (Hint 7 2 eq_refl eq_refl) as (Hadd & _).
  split; [vm_compute; reflexivity | exact Hadd].
Defined.

(** C3, as stated, fails: "1" and "0" are numeric literal tokens and their
    division returns no number at all, it raises ZeroDivisionError. *)
Lemma literal_division_by_zero_raises :
  Python.py_eval "1" = Ok (Python.PyInt 1)
  /\ Python.py_eval "0" = Ok (Python.PyInt 0)
  /\ InternalTransformer.div
       [InternalTransformer.Token "1"; InternalTransformer.Token "0"]
     = Raise ZeroDivisionError.
Proof. repeat split; vm_compute; reflexivity. Qed.

(** ** Aggregates: apply_ibis_aggregation, sql_aggregation *)

Lemma receiver_Ok (v : Ibis) : v <> PyNone -> receiver v = Ok v.
Proof. destruct v; intros H; try reflexivity. contradiction. Qed.

(** On a bound column the tail of the dispatch is decided by the max-like
    and min-like classes alone. *)
Lemma max_min_or_raise_bound (A : TransformerBaseClass.AggregationAliases)
    (T : TransformerBaseClass.ColumnTyping) (c : Ibis) (agg : string) :
  c <> PyNone ->
  TransformerBaseClass.max_min_or_raise A T c agg =
    if bool_decide (agg ∈ TransformerBaseClass.MAX_AGGREGATIONS A) then Ok (Max c)
    else if bool_decide (agg ∈ TransformerBaseClass.MIN_AGGREGATIONS A) then Ok (Min c)
    else Raise (Exception_
           ("Aggregation " +:+ agg +:+ " not implemented for column of type "
            +:+ TransformerBaseClass.type_text T c)).
Proof.
  intros Hc. unfold TransformerBaseClass.max_min_or_raise.
  rewrite (receiver_Ok c Hc). reflexivity.
Qed.

(** When the numeric block returns nothing the tail takes over. *)
Lemma apply_ibis_aggregation_falls_through (A : TransformerBaseClass.AggregationAliases)
    (T : TransformerBaseClass.ColumnTyping) (c : Ibis) (agg : string) :
  (agg ∉ TransformerBaseClass.NUMERIC_AGGREGATIONS A)
  \/ ((TransformerBaseClass.is_NumericColumn T c = true)
      /\ (agg ∉ TransformerBaseClass.AVG_AGGREGATIONS A)
      /\ (agg ∉ TransformerBaseClass.SUM_AGGREGATIONS A)) ->
  TransformerBaseClass.apply_ibis_aggregation A T c agg
  = TransformerBaseClass.max_min_or_raise A T c agg.
Proof.
  unfold TransformerBaseClass.apply_ibis_aggregation.
  intros [Hnum | (Hcol & Havg & Hsum)].
  - by rewrite (bool_decide_eq_false_2 _ Hnum).
  - case_bool_decide; [| reflexivity].
    by rewrite Hcol, (bool_decide_eq_false_2 _ Havg), (bool_decide_eq_false_2 _ Hsum).
Qed.

(** C4 (amended). The function name is tested against NUMERIC_AGGREGATIONS
    first. Inside that class a column that is not numeric fails the bare
    assertion: the error is an AssertionError without any message, it names
    neither the column nor its type; a numeric column gets the mean for an
    avg-like name and the sum for a sum-like name. Otherwise, and for a
    numeric name that is neither avg-like nor sum-like, a max-like name gives
    the maximum and a min-like name the minimum. A name of no class raises
    "Aggregation <name> not implemented for column of type <type>".
    sql_aggregation lower-cases the name and hands the Aggregate the alias
    and the type of the column. *)
Theorem aggregation_dispatch (A : TransformerBaseClass.AggregationAliases)
    (T : TransformerBaseClass.ColumnTyping) (column : Column) (aggregation : string) :
  let c := value column in
  let agg := lower aggregation in
  let apply := TransformerBaseClass.apply_ibis_aggregation A T c agg in
  (agg ∈ TransformerBaseClass.NUMERIC_AGGREGATIONS A ->
   TransformerBaseClass.is_NumericColumn T c = false ->
   apply = Raise AssertionError)
  /\ (agg ∈ TransformerBaseClass.NUMERIC_AGGREGATIONS A ->
      TransformerBaseClass.is_NumericColumn T c = true -> c <> PyNone ->
      (agg ∈ TransformerBaseClass.AVG_AGGREGATIONS A -> apply = Ok (Mean c))
      /\ (agg ∉ TransformerBaseClass.AVG_AGGREGATIONS A ->
          agg ∈ TransformerBaseClass.SUM_AGGREGATIONS A -> apply = Ok (Sum c)))
  /\ (((agg ∉ TransformerBaseClass.NUMERIC_AGGREGATIONS A)
       \/ ((TransformerBaseClass.is_NumericColumn T c = true)
           /\ (agg ∉ TransformerBaseClass.AVG_AGGREGATIONS A)
           /\ (agg ∉ TransformerBaseClass.SUM_AGGREGATIONS A))) ->
      c <> PyNone ->
      (agg ∈ TransformerBaseClass.MAX_AGGREGATIONS A -> apply = Ok (Max c))
      /\ (agg ∉ TransformerBaseClass.MAX_AGGREGATIONS A ->
          agg ∈ TransformerBaseClass.MIN_AGGREGATIONS A -> apply = Ok (Min c))
      /\ (agg ∉ TransformerBaseClass.MAX_AGGREGATIONS A ->
          agg ∉ TransformerBaseClass.MIN_AGGREGATIONS A ->
          apply = Raise (Exception_
                    ("Aggregation " +:+ agg +:+ " not implemented for column of type "
                     +:+ TransformerBaseClass.type_text T c))))
  /\ InternalTransformer.sql_aggregation A T aggregation column
     = (let* v := apply in Ok (VAggregate v (alias column) (typename column))).
Proof.
  intros c agg apply. subst apply.
  split; [| split; [| split]].
  - intros Hnum Hcol. unfold TransformerBaseClass.apply_ibis_aggregation.
    rewrite (bool_decide_eq_true_2 _ Hnum), Hcol. reflexivity.
  - intros Hnum Hcol Hc. unfold TransformerBaseClass.apply_ibis_aggregation.
    rewrite (bool_decide_eq_true_2 _ Hnum), Hcol, (receiver_Ok c Hc). simpl.
    split.
    + intros Havg. by rewrite (bool_decide_eq_true_2 _ Havg).
    + intros Havg Hsum.
      by rewrite (bool_decide_eq_false_2 _ Havg), (bool_decide_eq_true_2 _ Hsum).
  - intros Hfall Hc.
    rewrite (apply_ibis_aggregation_falls_through A T c agg Hfall),
      (max_min_or_raise_bound A T c agg Hc).
    split; [| split].
    + intros Hmax. by rewrite (bool_decide_eq_true_2 _ Hmax).
    + intros Hmax Hmin.
      by rewrite (bool_decide_eq_false_2 _ Hmax), (bool_decide_eq_true_2 _ Hmin).
    + intros Hmax Hmin.
      by rewrite (bool_decide_eq_false_2 _ Hmax), (bool_decide_eq_false_2 _ Hmin).
  - reflexivity.
Qed.

(** C4, as stated, fails: "sum" is numeric-only and month is a string column;
    the aggregation fails, but with the bare AssertionError, which carries no
    text and so names neither the column nor its type. *)
Lemma sum_of_string_column_is_bare_assertion :
  "sum" ∈ TransformerBaseClass.SUM_AGGREGATIONS Fixture.aliases
  /\ TransformerBaseClass.is_NumericColumn Fixture.typing
       (value Fixture.month) = false
  /\ InternalTransformer.sql_aggregation Fixture.aliases Fixture.typing
       "SUM" Fixture.month
     = Raise AssertionError.
Proof.
  split; [| split].
  - unfold Fixture.aliases; simpl. set_solver.
  - reflexivity.
  - unfold InternalTransformer.sql_aggregation,
      TransformerBaseClass.apply_ibis_aggregation.
    rewrite bool_decide_eq_true_2; [reflexivity |].
    unfold Fixture.aliases; simpl. set_solver.
Qed.

(** ** RANK and DENSE_RANK *)

Lemma omap_all_None {A B : Type} (f : A -> option B) (l : list A) :
  (forall x, x ∈ l -> f x = None) -> omap f l = [].
Proof.
  induction l as [| x l IH]; intros Hnone; [reflexivity |]. simpl.
  rewrite (Hnone x) by left. apply IH. intros y Hy. apply Hnone. by right.
Qed.

Section rank_facts.

Variable get_value : Value -> Ibis.

(** The entry an order token adds to [order_list]. *)
Let order_entry (token : InternalTransformer.RankToken) : option Ibis :=
  match token with
  | InternalTransformer.OrderToken column ascending =>
      Some (if ascending then get_value (VColumn column)
            else Desc (get_value (VColumn column)))
  | _ => None
  end.

(** The entry a partition token adds to [partition_list]. *)
Let partition_entry (token : InternalTransformer.RankToken) : option Ibis :=
  match token with
  | InternalTransformer.PartitionToken column => Some (value column)
  | _ => None
  end.

Lemma rank_fold_lists (expressions : list InternalTransformer.RankToken)
    (order_list partition_list : list Ibis) (rank_column : Ibis) :
  exists rank_column',
    fold_left (InternalTransformer.rank_step get_value) expressions
      (order_list, partition_list, rank_column)
    = (order_list ++ omap order_entry expressions,
       partition_list ++ omap partition_entry expressions,
       rank_column').
Proof.
  revert order_list partition_list rank_column.
  induction expressions as [| token expressions IH];
    intros order_list partition_list rank_column; simpl.
  - exists rank_column. by rewrite !app_nil_r.
  - destruct token as [column [|] | column | type]; simpl.
    + edestruct IH as [r ->]. exists r. by rewrite <- app_assoc.
    + edestruct IH as [r ->]. exists r. by rewrite <- app_assoc.
    + edestruct IH as [r ->]. exists r. by rewrite <- app_assoc.
    + apply IH.
Qed.

(** Once a ranking column is held, the rest of the loop keeps it. *)
Lemma rank_fold_keeps_column (expressions : list InternalTransformer.RankToken)
    (order_list partition_list : list Ibis) (rank_column : Ibis) :
  rank_column <> PyNone ->
  (fold_left (InternalTransformer.rank_step get_value) expressions
     (order_list, partition_list, rank_column)).2 = rank_column.
Proof.
  revert order_list partition_list.
  induction expressions as [| token expressions IH];
    intros order_list partition_list Hheld; simpl; [reflexivity |].
  destruct token as [column ascending | column | type]; simpl.
  - destruct rank_column; try contradiction; apply IH; assumption.
  - apply IH; assumption.
  - apply IH; assumption.
Qed.

(** Before the first order token no ranking column is taken. *)
Lemma rank_fold_first_order (before after : list InternalTransformer.RankToken)
    (column : Column) (ascending : bool) (order_list partition_list : list Ibis) :
  (forall token, token ∈ before -> order_entry token = None) ->
  get_value (VColumn column) <> PyNone ->
  (fold_left (InternalTransformer.rank_step get_value)
     (before ++ InternalTransformer.OrderToken column ascending :: after)
     (order_list, partition_list, PyNone)).2 = get_value (VColumn column).
Proof.
  revert order_list partition_list.
  induction before as [| token before IH]; intros order_list partition_list Hnone Hbound.
  - simpl. apply rank_fold_keeps_column. assumption.
  - simpl. assert (order_entry token = None) as Htoken by (apply Hnone; left).
    assert (forall t, t ∈ before -> order_entry t = None) as Hrest
      by (intros t Ht; apply Hnone; by right).
    destruct token as [c a | c | ty]; simpl in *; [discriminate | |]; by apply IH.
Qed.

(** C5. For a RANK() or DENSE_RANK() call whose window specification has an
    ORDER BY list, the ranking function is applied to the first column of
    that list; order_by holds one entry per order token, in order, wrapped
    in the descending marker exactly when the token is tagged descending;
    group_by holds the PARTITION BY columns, in order, and is empty when
    there is no partition token. *)
Theorem rank_over_window (before after : list InternalTransformer.RankToken)
    (column : Column) (ascending : bool) :
  let expressions :=
    before ++ InternalTransformer.OrderToken column ascending :: after in
  let order_by :=
    omap (fun token =>
            match token with
            | InternalTransformer.OrderToken c asc =>
                Some (if asc then get_value (VColumn c) else Desc (get_value (VColumn c)))
            | _ => None
            end) expressions in
  let group_by :=
    omap (fun token =>
            match token with
            | InternalTransformer.PartitionToken c => Some (value c)
            | _ => None
            end) expressions in
  (forall token, token ∈ before ->
     forall c asc, token <> InternalTransformer.OrderToken c asc) ->
  get_value (VColumn column) <> PyNone ->
  InternalTransformer.rank_expression get_value [expressions]
    = Ok (VExpression (Over (Rank (get_value (VColumn column))) order_by group_by) None)
  /\ InternalTransformer.dense_rank_expression get_value [expressions]
     = Ok (VExpression (Over (DenseRank (get_value (VColumn column))) order_by group_by)
             None)
  /\ ((forall token, token ∈ expressions ->
         forall c, token <> InternalTransformer.PartitionToken c) ->
      group_by = []).
Proof.
  intros expressions order_by group_by Hbefore Hbound.
  assert (forall token, token ∈ before -> order_entry token = None) as Hnone.
  { intros token Hin. specialize (Hbefore token Hin).
    destruct token as [c a | c | ty]; simpl; [| reflexivity | reflexivity].
    exfalso. by apply (Hbefore c a). }
  pose proof (rank_fold_first_order before after column ascending [] [] Hnone Hbound)
    as Hcolumn.
  destruct (rank_fold_lists expressions [] [] PyNone) as [r Hfold].
  fold expressions in Hcolumn. rewrite Hfold in Hcolumn. simpl in Hcolumn. subst r.
  unfold InternalTransformer.rank_expression, InternalTransformer.dense_rank_expression,
    InternalTransformer.rank, InternalTransformer.get_rank_orders_and_partitions. simpl.
  rewrite Hfold. simpl.
  unfold InternalTransformer.apply_rank_function.
  rewrite (receiver_Ok _ Hbound).
  split; [reflexivity |]. split; [reflexivity |].
  intros Hpart. apply omap_all_None. intros token Hin.
  specialize (Hpart token Hin).
  destruct token as [c a | c | ty]; [reflexivity | | reflexivity].
  exfalso. by apply (Hpart c).
Qed.

End rank_facts.

Lemma rank_over_window_witness :
  InternalTransformer.rank_expression Fixture.get_value
    [[InternalTransformer.OrderToken Fixture.wind false;
      InternalTransformer.OrderToken Fixture.temp true]]
  = Ok (VExpression
          (Over (Rank (TableColumn "FOREST_FIRES" "wind" Float64))
                [Desc (TableColumn "FOREST_FIRES" "wind" Float64);
                 TableColumn "FOREST_FIRES" "temp" Float64]
                [])
          None).
Proof.
  apply (rank_over_window Fixture.get_value []
           [InternalTransformer.OrderToken Fixture.temp true] Fixture.wind false).
  - intros token Hin. by apply elem_of_nil in Hin.
  - discriminate.
Defined.

(** ** Comparisons, BETWEEN, IN and NOT IN *)

Section comparison_facts.

Variable get_value : Value -> Ibis.

(** C6. BETWEEN lowers to the backend's range predicate [between] on the
    backend value of the tested operand, with the backend values of the two
    bounds as lower and upper end; IN and NOT IN lower to the backend's
    [isin] and [notin] on the tested operand, against the list of the
    remaining operands, each unwrapped by get_value, in order. *)
Theorem between_and_membership_lowering (main lower_bound upper_bound : Value)
    (values : list Value) :
  Value_value main <> PyNone ->
  InternalTransformer.between [main; lower_bound; upper_bound]
    = Ok (ValueWithPlan_ (Between (Value_value main) (Value_value lower_bound)
                                  (Value_value upper_bound)))
  /\ InternalTransformer.in_expr get_value (main :: values)
     = Ok (ValueWithPlan_ (IsIn (Value_value main) (get_value <$> values)))
  /\ InternalTransformer.not_in_expr get_value (main :: values)
     = Ok (ValueWithPlan_ (NotIn (Value_value main) (get_value <$> values))).
Proof.
  intros Hbound.
  unfold InternalTransformer.between, InternalTransformer.in_expr,
    InternalTransformer.not_in_expr, InternalTransformer._get_expression_values.
  simpl. rewrite (receiver_Ok _ Hbound). simpl. auto.
Qed.

End comparison_facts.

Lemma between_and_membership_lowering_witness :
  InternalTransformer.between
    [VColumn Fixture.wind; Fixture.number 5; Fixture.number 6]
  = Ok (ValueWithPlan_
          (Between (TableColumn "FOREST_FIRES" "wind" Float64)
                   (Const (CNum (Python.PyInt 5)))
                   (Const (CNum (Python.PyInt 6)))))
  /\ InternalTransformer.in_expr Fixture.get_value
       [VColumn Fixture.month; Fixture.text "aug"; Fixture.text "sep"]
     = Ok (ValueWithPlan_
             (IsIn (TableColumn "FOREST_FIRES" "month" String_)
                   [Const (CStr "aug"); Const (CStr "sep")])).
Proof.
  split.
  - apply (between_and_membership_lowering Fixture.get_value
             (VColumn Fixture.wind) (Fixture.number 5) (Fixture.number 6) []).
    discriminate.
  - apply (between_and_membership_lowering Fixture.get_value
             (VColumn Fixture.month) (Fixture.number 5) (Fixture.number 6)
             [Fixture.text "aug"; Fixture.text "sep"]).
    discriminate.
Defined.

(** ** CASE *)

Section case_facts.

Variable get_value : Value -> Ibis.

Lemma case_fold_whens (pairs : list (Value * Value))
    (cases : list (Ibis * Ibis)) (default : option Ibis)
    (tail : list InternalTransformer.WhenExpression) :
  fold_left (InternalTransformer.case_step get_value)
    (((fun p => InternalTransformer.WhenThen p.1 p.2) <$> pairs) ++ tail)
    (Ok (CaseBuilder cases default))
  = fold_left (InternalTransformer.case_step get_value) tail
      (Ok (CaseBuilder (cases ++ ((fun p => (get_value p.1, get_value p.2)) <$> pairs))
                       default)).
Proof.
  revert cases. induction pairs as [| [c v] pairs IH]; intros cases; simpl.
  - by rewrite app_nil_r.
  - rewrite IH. by rewrite <- app_assoc.
Qed.

(** C8. The (condition, result) pairs of a CASE expression are added to the
    backend case-builder in source order, each through get_value; with an
    ELSE branch the builder receives that value as its default and is
    ended, and the outcome is wrapped in one Expression value. Without an
    ELSE the Expression wraps the builder as the pairs left it. *)
Theorem case_expression_folds_in_order (pairs : list (Value * Value))
    (else_value : Value) :
  let whens := (fun p => InternalTransformer.WhenThen p.1 p.2) <$> pairs in
  let cases := (fun p => (get_value p.1, get_value p.2)) <$> pairs in
  InternalTransformer.case_expression get_value
    (whens ++ [InternalTransformer.ElseValue else_value])
  = Ok (VExpression (SearchedCase cases (Some (get_value else_value))) None)
  /\ InternalTransformer.case_expression get_value whens
     = Ok (VExpression (CaseBuilder cases None) None).
Proof.
  intros whens cases. unfold InternalTransformer.case_expression. split.
  - subst whens. rewrite case_fold_whens. reflexivity.
  - subst whens. rewrite <- (app_nil_r (_ <$> pairs)), case_fold_whens. reflexivity.
Qed.

End case_facts.

(** ** Casts *)

Section cast_facts.

Variable to_ibis_type : string -> result DataType.
Variable TYPE_TO_SQL_TYPE : gmap string LiteralClass.

(** C7. Casting a Column with AS TYPE hands back the very Column it was
    given: the heap holds, at the same address, a Column whose declared type
    is the target type and whose name, table, backend value and alias are
    as before, and every other object is untouched. Casting a Literal builds
    a new Literal of the class the type table gives, around the cast of the
    old backend value, and changes no object. *)
Theorem cast_changes_declared_type_only (heap : gmap positive Column)
    (address : positive) (column : Column) (keyword : string) (ty : DataType) :
  heap !! address = Some column ->
  to_ibis_type keyword = Ok ty ->
  (exists heap' column',
     InternalTransformer.as_type to_ibis_type heap address keyword
       = Ok (heap', address)
     /\ heap' !! address = Some column'
     /\ typename column' = Some ty
     /\ name column' = name column
     /\ table column' = table column
     /\ value column' = value column
     /\ alias column' = alias column
     /\ forall other, other <> address -> heap' !! other = heap !! other)
  /\ (forall (literal : Value) cls,
        TYPE_TO_SQL_TYPE !! keyword = Some cls ->
        Value_value literal <> PyNone ->
        InternalTransformer.literal_cast TYPE_TO_SQL_TYPE to_ibis_type literal keyword
        = Ok (VLiteral cls (Cast (Value_value literal) ty) None)).
Proof.
  intros Hheap Hty. split.
  - unfold InternalTransformer.as_type, InternalTransformer.deref.
    rewrite Hheap; simpl. rewrite Hty; simpl.
    eexists _, _. split; [reflexivity |].
    split; [apply lookup_insert_eq |].
    repeat (split; [reflexivity |]).
    intros other Hother. by rewrite lookup_insert_ne.
  - intros literal cls Hcls Hbound.
    unfold InternalTransformer.literal_cast, getitem.
    rewrite Hcls; simpl. rewrite (receiver_Ok _ Hbound); simpl.
    rewrite Hty. reflexivity.
Qed.

End cast_facts.

Lemma cast_changes_declared_type_only_witness :
  (exists heap' column',
     InternalTransformer.as_type Fixture.to_ibis_type {[1%positive := Fixture.temp]}
       1%positive "int64"
       = Ok (heap', 1%positive)
     /\ heap' !! 1%positive = Some column'
     /\ typename column' = Some Int64
     /\ name column' = "temp"
     /\ table column' = Some "FOREST_FIRES"
     /\ value column' = TableColumn "FOREST_FIRES" "temp" Float64
     /\ alias column' = None
     /\ forall other, other <> 1%positive ->
          heap' !! other = ({[1%positive := Fixture.temp]} : gmap positive Column) !! other)
  /\ InternalTransformer.literal_cast Fixture.TYPE_TO_SQL_TYPE Fixture.to_ibis_type
       (Fixture.number 7) "int64"
     = Ok (VLiteral ClsNumber (Cast (Const (CNum (Python.PyInt 7))) Int64) None).
Proof.
  destruct (cast_changes_declared_type_only Fixture.to_ibis_type
              Fixture.TYPE_TO_SQL_TYPE {[1%positive := Fixture.temp]} 1%positive
              Fixture.temp "int64" Int64)
    as [Hcolumn Hliteral].
  - apply lookup_singleton_eq.
  - vm_compute; reflexivity.
  - split; [exact Hcolumn |].
    apply (Hliteral (Fixture.number 7) ClsNumber); [vm_compute; reflexivity | discriminate].
Defined.

(** * Further properties *)

(** ** Scope resolution *)

Lemma set_column_value_star (self : Transformer) (column : Column) :
  name column = "*" ->
  TransformerBaseClass.set_column_value self column = Ok column.
Proof.
  intros Hstar. unfold TransformerBaseClass.set_column_value.
  by rewrite bool_decide_eq_false_2 by (intros Hne; by apply Hne).
Qed.

Lemma set_column_value_missing (self : Transformer) (column : Column) :
  name column <> "*" ->
  column_to_dataframe_name self !! lower (name column) = None ->
  TransformerBaseClass.set_column_value self column
  = Raise (KeyError (lower (name column))).
Proof.
  intros Hstar Hnone. unfold TransformerBaseClass.set_column_value.
  rewrite bool_decide_eq_true_2 by assumption.
  unfold getitem. by rewrite Hnone.
Qed.

(** X1. set_column_value leaves the name [*] alone: the column comes back as
    it was, whatever the catalog holds, and no dictionary is read. On any
    other name a successful resolution rewrites the backend value and the
    table only: the name, the alias and the declared type are kept. *)
Theorem set_column_value_frame (self : Transformer) (column : Column) :
  (name column = "*" ->
   TransformerBaseClass.set_column_value self column = Ok column)
  /\ (forall resolved,
        TransformerBaseClass.set_column_value self column = Ok resolved ->
        name resolved = name column
        /\ alias resolved = alias column
        /\ typename resolved = typename column).
Proof.
  split; [apply set_column_value_star |].
  - intros resolved Hresolved.
    destruct (decide (name column = "*")) as [Hstar | Hstar].
    + rewrite (set_column_value_star self column Hstar) in Hresolved.
      by injection Hresolved as <-.
    + apply set_column_value_Ok_inv in Hresolved
        as (t & df & names & true_name & ty & _ & _ & _ & _ & _ & ->);
        [| assumption].
      auto.
Qed.

Section scoped_facts.

Variable first : InternalTransformer.TableArg.
Variable rest : list InternalTransformer.TableArg.
Variable dm : gmap string TableExpr.
Variable cnm : gmap string (gmap string string).
Variable catalog : gmap string TableName.

Let scope : list string := InternalTransformer.table_label <$> (first :: rest).

(** The transformer [__init__] builds over a scope with a first table. *)
Lemma init_scoped :
  exists scoped,
    InternalTransformer.__init__ (first :: rest) dm cnm catalog
      = Ok (mkTransformer dm cnm scoped scope)
    /\ forall column,
         scoped !! column =
         match catalog !! column with
         | Some (AmbiguousColumn candidates) =>
             if bool_decide (InternalTransformer.table_label first ∈ candidates)
             then Some (Named (InternalTransformer.table_label first)) else None
         | Some (Named t) => if bool_decide (t ∈ scope) then Some (Named t) else None
         | None => None
         end.
Proof.
  unfold InternalTransformer.__init__.
  destruct (init_fold_lookup (InternalTransformer.table_label first)
              (InternalTransformer.table_label <$> rest) catalog)
    as (scoped & Hfold & Hscoped).
  exists scoped. split; [| exact Hscoped].
  change (InternalTransformer.table_label <$> first :: rest)
    with (InternalTransformer.table_label first
          :: (InternalTransformer.table_label <$> rest)).
  by rewrite Hfold.
Qed.

(** X2. Resolution never leaves the scope: when the scoped transformer
    resolves a column name other than [*], the table it records on the
    Column is one of the tables of the scope, and the backend value is a
    column of that table's expression in dataframe_map, under a name of
    its schema. *)
Theorem resolved_table_is_in_scope (name_list_format : list string)
    (resolved : Column) :
  String.concat "" name_list_format <> "*" ->
  (let* self := InternalTransformer.__init__ (first :: rest) dm cnm catalog in
   TransformerBaseClass.column_name self name_list_format) = Ok resolved ->
  exists t dataframe column_true_name ty,
    table resolved = Some t
    /\ t ∈ InternalTransformer.table_label <$> (first :: rest)
    /\ dm !! t = Some dataframe
    /\ schema dataframe !! column_true_name = Some ty
    /\ value resolved = TableColumn (table_name dataframe) column_true_name ty.
Proof.
  intros Hstar. destruct init_scoped as (scoped & -> & Hscoped). simpl.
  unfold TransformerBaseClass.column_name. intros Hresolved.
  apply set_column_value_Ok_inv in Hresolved
    as (t & df & names & true_name & ty & H1 & H2 & _ & _ & H5 & ->);
    [| assumption].
  simpl in H1, H2. exists t, df, true_name, ty.
  split; [reflexivity |]. split; [| by repeat split].
  rewrite Hscoped in H1.
  destruct (catalog !! lower (String.concat "" name_list_format))
    as [[t' | candidates] |]; [| | discriminate].
  - case_bool_decide as Hin; [| discriminate]. by injection H1 as <-.
  - case_bool_decide; [| discriminate]. injection H1 as <-. by left.
Qed.

(** X3. A name the scope does not cover is a missing key: when the catalog
    does not know the lower-cased name, or files it under a table outside
    the scope, or marks it ambiguous between tables of which the first table
    of the scope is none (even if a later table of the scope is one), the
    scoped transformer raises KeyError on the lower-cased name. *)
Theorem uncovered_name_is_KeyError (spelling : string) :
  spelling <> "*" ->
  catalog !! lower spelling = None
  \/ (exists t, catalog !! lower spelling = Some (Named t)
                /\ t ∉ InternalTransformer.table_label <$> (first :: rest))
  \/ (exists candidates,
        catalog !! lower spelling = Some (AmbiguousColumn candidates)
        /\ InternalTransformer.table_label first ∉ candidates) ->
  (let* self := InternalTransformer.__init__ (first :: rest) dm cnm catalog in
   TransformerBaseClass.column_name self [spelling])
  = Raise (KeyError (lower spelling)).
Proof.
  intros Hstar Hcase. destruct init_scoped as (scoped & -> & Hscoped).
  change (TransformerBaseClass.set_column_value
            (mkTransformer dm cnm scoped scope) (Column_ spelling)
          = Raise (KeyError (lower (name (Column_ spelling))))).
  apply set_column_value_missing; [assumption |]. simpl. rewrite Hscoped.
  destruct Hcase as [-> | [(t & -> & Hout) | (candidates & -> & Hout)]].
  - reflexivity.
  - by rewrite bool_decide_eq_false_2.
  - by rewrite bool_decide_eq_false_2.
Qed.

(** X4. For a name the catalog files under one table of the scope, the
    scoped transformer and the transformer over the whole catalog resolve
    alike: same Column on success, same exception otherwise. *)
Theorem scoped_agrees_with_catalog (column : Column) (t : string)
    (tables_of_base : list string) :
  catalog !! lower (name column) = Some (Named t) ->
  t ∈ InternalTransformer.table_label <$> (first :: rest) ->
  exists self,
    InternalTransformer.__init__ (first :: rest) dm cnm catalog = Ok self
    /\ TransformerBaseClass.set_column_value self column
       = TransformerBaseClass.set_column_value
           (mkTransformer dm cnm catalog tables_of_base) column.
Proof.
  intros Hcatalog Hin. destruct init_scoped as (scoped & -> & Hscoped).
  eexists. split; [reflexivity |].
  destruct (decide (name column = "*")) as [Hstar | Hstar].
  - by rewrite !(set_column_value_star _ column Hstar).
  - rewrite (set_column_value_named _ column t Hstar);
      [| simpl; rewrite Hscoped, Hcatalog; by rewrite bool_decide_eq_true_2].
    by rewrite (set_column_value_named _ column t Hstar).
Qed.

End scoped_facts.

Lemma resolved_table_is_in_scope_witness :
  exists t dataframe column_true_name ty,
    Some "DIGIMON_MON_LIST" = Some t
    /\ t ∈ InternalTransformer.table_label <$> Fixture.digimon_join
    /\ Fixture.dataframe_map !! t = Some dataframe
    /\ schema dataframe !! column_true_name = Some ty
    /\ TableColumn "DIGIMON_MON_LIST" "Type" String_
       = TableColumn (table_name dataframe) column_true_name ty.
Proof.
  apply (resolved_table_is_in_scope
           (InternalTransformer.TableStr "DIGIMON_MON_LIST")
           [InternalTransformer.TableStr "DIGIMON_MOVE_LIST"]
           Fixture.dataframe_map Fixture.column_name_map
           Fixture.column_to_dataframe_name ["Type"]
           (mkColumn "Type" (Some "DIGIMON_MON_LIST")
                     (TableColumn "DIGIMON_MON_LIST" "Type" String_) None None)).
  - discriminate.
  - vm_compute; reflexivity.
Defined.

Lemma uncovered_name_is_KeyError_witness :
  (let* self := InternalTransformer.__init__
                  (InternalTransformer.TableStr "FOREST_FIRES" :: Fixture.digimon_join)
                  Fixture.dataframe_map Fixture.column_name_map
                  Fixture.column_to_dataframe_name in
   TransformerBaseClass.column_name self ["Type"])
  = Raise (KeyError "type").
Proof.
  apply (uncovered_name_is_KeyError
           (InternalTransformer.TableStr "FOREST_FIRES") Fixture.digimon_join
           Fixture.dataframe_map Fixture.column_name_map
           Fixture.column_to_dataframe_name "Type").
  - discriminate.
  - right; right. exists Fixture.both_digimon. split; [vm_compute; reflexivity |].
    unfold Fixture.both_digimon. simpl.
    intros [Hin | Hin]%elem_of_union; apply elem_of_singleton in Hin; discriminate.
Defined.

Lemma scoped_agrees_with_catalog_witness :
  exists self,
    InternalTransformer.__init__
      (InternalTransformer.TableStr "FOREST_FIRES" :: Fixture.digimon_join)
      Fixture.dataframe_map Fixture.column_name_map
      Fixture.column_to_dataframe_name = Ok self
    /\ TransformerBaseClass.set_column_value self (Column_ "Wind")
       = TransformerBaseClass.set_column_value Fixture.base_transformer (Column_ "Wind").
Proof.
  apply (scoped_agrees_with_catalog
           (InternalTransformer.TableStr "FOREST_FIRES") Fixture.digimon_join
           Fixture.dataframe_map Fixture.column_name_map
           Fixture.column_to_dataframe_name (Column_ "Wind") "FOREST_FIRES" []).
  - vm_compute; reflexivity.
  - simpl. set_solver.
Defined.

(** The loop of [__init__] over an empty scope: it stops at the first marker
    it meets, and adds nothing otherwise. *)
Lemma init_fold_empty_scope (catalog : gmap string TableName) :
  (map_fold (InternalTransformer.init_step []) (Ok ∅) catalog = Raise IndexError
   /\ exists column candidates,
        catalog !! column = Some (AmbiguousColumn candidates))
  \/ (map_fold (InternalTransformer.init_step []) (Ok ∅) catalog = Ok ∅
      /\ forall column candidates,
           catalog !! column <> Some (AmbiguousColumn candidates)).
Proof.
  apply (map_fold_weak_ind (fun r m =>
    (r = Raise IndexError
     /\ exists column candidates, m !! column = Some (AmbiguousColumn candidates))
    \/ (r = Ok ∅
        /\ forall column candidates,
             m !! column <> Some (AmbiguousColumn candidates)))).
  - right. split; [reflexivity |]. intros column candidates.
    rewrite lookup_empty. discriminate.
  - intros i x m r Hi [(-> & column & candidates & Hlookup) | (-> & Hnone)].
    + left. split; [reflexivity |]. exists column, candidates.
      rewrite lookup_insert_ne; [assumption |]. intros ->. congruence.
    + destruct x as [t | candidates]; unfold InternalTransformer.init_step, bind.
      * right. split.
        { rewrite bool_decide_eq_false_2; [reflexivity | apply not_elem_of_nil]. }
        intros column cs. rewrite lookup_insert.
        destruct (decide (i = column)); [discriminate | apply Hnone].
      * left. split; [reflexivity |]. exists i, candidates.
        apply lookup_insert_eq.
Qed.

(** X5. With no table in scope, __init__ raises IndexError exactly when the
    catalog holds an ambiguous marker (it asks for the first table of the
    scope); over a catalog without markers it returns a transformer whose
    column map is empty, on which every name but [*] is a missing key. *)
Theorem empty_scope_init (dm : gmap string TableExpr)
    (cnm : gmap string (gmap string string)) (catalog : gmap string TableName) :
  (InternalTransformer.__init__ [] dm cnm catalog = Raise IndexError
   <-> exists column candidates,
         catalog !! column = Some (AmbiguousColumn candidates))
  /\ ((forall column candidates,
         catalog !! column <> Some (AmbiguousColumn candidates)) ->
      InternalTransformer.__init__ [] dm cnm catalog = Ok (mkTransformer dm cnm ∅ [])
      /\ forall column : Column,
           name column <> "*" ->
           TransformerBaseClass.set_column_value (mkTransformer dm cnm ∅ []) column
           = Raise (KeyError (lower (name column)))).
Proof.
  unfold InternalTransformer.__init__. simpl.
  destruct (init_fold_empty_scope catalog)
    as [(-> & column & candidates & Hlookup) | (-> & Hnone)]; simpl.
  - split; [split; eauto |].
    intros Hnone. exfalso. by apply (Hnone column candidates).
  - split.
    + split; [discriminate |]. intros (column & candidates & Hlookup).
      exfalso. by apply (Hnone column candidates).
    + intros _. split; [reflexivity |]. intros column Hstar.
      apply set_column_value_missing; [assumption | apply lookup_empty].
Qed.

(** ** Literal arithmetic *)

(** An [int] comes out of [+], [-] and [*] only when both operands are [int]s. *)
Lemma py_arith_int_inv (x y : Python.num) (z : Z) :
  (Python.py_add x y = Ok (Python.PyInt z) ->
     exists a b, x = Python.PyInt a /\ y = Python.PyInt b /\ z = a + b)
  /\ (Python.py_sub x y = Ok (Python.PyInt z) ->
        exists a b, x = Python.PyInt a /\ y = Python.PyInt b /\ z = a - b)
  /\ (Python.py_mul x y = Ok (Python.PyInt z) ->
        exists a b, x = Python.PyInt a /\ y = Python.PyInt b /\ z = a * b).
Proof.
  destruct x as [a | fa], y as [b | fb]; simpl;
    repeat split; intros H;
    try (injection H as <-; by eauto);
    repeat match type of H with
      | context [Python.float_of_int ?v] =>
          destruct (Python.float_of_int v); simpl in H
      end; discriminate.
Qed.

(** X6. When its two children evaluate to numbers, ints or floats, div
    never returns an int: a division that returns gives a float. And add,
    sub and mul return an int only when both children evaluated to ints,
    the results then being their integer sum, difference and product. *)
Theorem arithmetic_result_types (arg1 arg2 : InternalTransformer.Arg)
    (rest : list InternalTransformer.Arg) (a b : Python.num) :
  InternalTransformer.num_eval arg1 = Ok a ->
  InternalTransformer.num_eval arg2 = Ok b ->
  let args := arg1 :: arg2 :: rest in
  (forall v, InternalTransformer.div args = Ok v -> exists f, v = Python.PyFloat f)
  /\ (forall z,
        InternalTransformer.add args = Ok (Python.PyInt z)
        \/ InternalTransformer.sub args = Ok (Python.PyInt z)
        \/ InternalTransformer.mul args = Ok (Python.PyInt z) ->
        exists x y,
          a = Python.PyInt x /\ b = Python.PyInt y
          /\ InternalTransformer.add args = Ok (Python.PyInt (x + y))
          /\ InternalTransformer.sub args = Ok (Python.PyInt (x - y))
          /\ InternalTransformer.mul args = Ok (Python.PyInt (x * y))).
Proof.
  intros H1 H2 args.
  assert (InternalTransformer.add args = Python.py_add a b
          /\ InternalTransformer.sub args = Python.py_sub a b
          /\ InternalTransformer.mul args = Python.py_mul a b
          /\ InternalTransformer.div args = Python.py_truediv a b)
    as (Hadd & Hsub & Hmul & Hdiv).
  { unfold args, InternalTransformer.add, InternalTransformer.sub,
      InternalTransformer.mul, InternalTransformer.div; simpl.
    rewrite H1, H2; simpl. auto. }
  rewrite Hadd, Hsub, Hmul, Hdiv. split.
  - intros v Hv.
    destruct (py_truediv_cases a b) as [[f Hf] | [Hf | Hf]]; rewrite Hf in Hv;
      [injection Hv as <-; eauto | discriminate | discriminate].
  - intros z Hint.
    destruct (py_arith_int_inv a b z) as (Ia & Is & Im).
    assert (exists x y, a = Python.PyInt x /\ b = Python.PyInt y) as (x & y & -> & ->).
    { destruct Hint as [H | [H | H]];
        [apply Ia in H | apply Is in H | apply Im in H];
        destruct H as (x & y & -> & -> & _); eauto. }
    exists x, y. simpl. auto 10.
Qed.

Lemma arithmetic_result_types_witness :
  exists f, Python.PyFloat 2%float = Python.PyFloat f.
Proof.
  destruct (arithmetic_result_types (InternalTransformer.IntArg 6)
              (InternalTransformer.Token "3") [] (Python.PyInt 6) (Python.PyInt 3)
              eq_refl ltac:(vm_compute; reflexivity))
    as [Hdiv _].
  apply Hdiv. vm_compute; reflexivity.
Defined.

(** X7. The arithmetic handlers read both children before evaluating any:
    with fewer than two children each of them raises IndexError, also when
    the only child is no number. With two children the first is evaluated
    first, and what it raises is what the handler raises, whatever the
    second child is; a child that is neither a token nor a number raises
    AssertionError. *)
Theorem arithmetic_errors_in_operand_order (args : list InternalTransformer.Arg) :
  (length args < 2 ->
   InternalTransformer.add args = Raise IndexError
   /\ InternalTransformer.sub args = Raise IndexError
   /\ InternalTransformer.mul args = Raise IndexError
   /\ InternalTransformer.div args = Raise IndexError)%nat
  /\ (forall arg1 arg2 rest e,
        args = arg1 :: arg2 :: rest ->
        InternalTransformer.num_eval arg1 = Raise e
        \/ ((exists a, InternalTransformer.num_eval arg1 = Ok a)
            /\ InternalTransformer.num_eval arg2 = Raise e) ->
        InternalTransformer.add args = Raise e
        /\ InternalTransformer.sub args = Raise e
        /\ InternalTransformer.mul args = Raise e
        /\ InternalTransformer.div args = Raise e)
  /\ (forall arg2 rest,
        args = InternalTransformer.OtherArg :: arg2 :: rest ->
        InternalTransformer.div args = Raise AssertionError).
Proof.
  unfold InternalTransformer.add, InternalTransformer.sub, InternalTransformer.mul,
    InternalTransformer.div, index.
  split; [| split].
  - intros Hlen. destruct args as [| arg1 [| arg2 rest]]; simpl in *; auto; lia.
  - intros arg1 arg2 rest e -> [H1 | [[a H1] H2]]; simpl; rewrite H1; simpl;
      rewrite ?H2; auto.
  - intros arg2 rest ->. reflexivity.
Qed.

(** X8. Folding composes: a number an arithmetic handler returned goes
    through num_eval unchanged when it is the child of the next handler, so
    a product of two integer literals added to a third integer literal
    folds to the integer [x + y * z], as [1 + 2 * 3] does. *)
Theorem folded_number_reenters_unchanged (text1 text2 text3 : string) (x y z : Z) :
  Python.py_eval text1 = Ok (Python.PyInt x) ->
  Python.py_eval text2 = Ok (Python.PyInt y) ->
  Python.py_eval text3 = Ok (Python.PyInt z) ->
  (forall n, InternalTransformer.num_eval (Handlers.child_of_num n) = Ok n)
  /\ (let* product := InternalTransformer.mul
                        [InternalTransformer.Token text2; InternalTransformer.Token text3] in
      InternalTransformer.add
        [InternalTransformer.Token text1; Handlers.child_of_num product])
     = Ok (Python.PyInt (x + y * z))
  /\ (let* difference := InternalTransformer.sub
                           [InternalTransformer.Token text1; InternalTransformer.Token text2] in
      InternalTransformer.mul
        [Handlers.child_of_num difference; InternalTransformer.Token text3])
     = Ok (Python.PyInt ((x - y) * z)).
Proof.
  intros H1 H2 H3. split; [by intros [] |].
  unfold InternalTransformer.mul, InternalTransformer.add, InternalTransformer.sub.
  simpl. rewrite H1, H2, H3. simpl. rewrite ?H1, ?H3. simpl. auto.
Qed.

Lemma folded_number_reenters_unchanged_witness :
  (let* product := InternalTransformer.mul
                     [InternalTransformer.Token "2"; InternalTransformer.Token "3"] in
   InternalTransformer.add
     [InternalTransformer.Token "1"; Handlers.child_of_num product])
  = Ok (Python.PyInt 7).
Proof.
  apply (folded_number_reenters_unchanged "1" "2" "3" 1 2 3);
    vm_compute; reflexivity.
Defined.

(** X9. A zero divisor raises ZeroDivisionError in each of its spellings:
    the integer 0, the token 0, and the floats 0.0 and -0.0, the last two
    once the dividend has been converted to a float. *)
Theorem division_by_any_zero (arg1 : InternalTransformer.Arg) (a : Python.num) :
  InternalTransformer.num_eval arg1 = Ok a ->
  (forall f, Python.as_float a = Ok f ->
     InternalTransformer.div [arg1; InternalTransformer.IntArg 0]
       = Raise ZeroDivisionError
     /\ InternalTransformer.div [arg1; InternalTransformer.Token "0"]
        = Raise ZeroDivisionError
     /\ InternalTransformer.div [arg1; InternalTransformer.FloatArg PrimFloat.zero]
        = Raise ZeroDivisionError
     /\ InternalTransformer.div [arg1; InternalTransformer.FloatArg PrimFloat.neg_zero]
        = Raise ZeroDivisionError)
  /\ (Python.as_float a = Raise OverflowError ->
      InternalTransformer.div [arg1; InternalTransformer.IntArg 0]
        = Raise ZeroDivisionError
      /\ InternalTransformer.div [arg1; InternalTransformer.FloatArg PrimFloat.zero]
         = Raise OverflowError).
Proof.
  intros Harg. unfold InternalTransformer.div. simpl. rewrite Harg. simpl.
  change (Python.py_eval "0") with (Ok (Python.PyInt 0) : result Python.num). simpl.
  split.
  - intros f Hf. destruct a as [z | fa]; simpl in *.
    + rewrite Hf. simpl. auto.
    + injection Hf as ->. auto.
  - intros Hf. destruct a as [z | fa]; simpl in *; [| discriminate].
    rewrite Hf. auto.
Qed.

Lemma division_by_any_zero_witness :
  InternalTransformer.div
    [InternalTransformer.Token "1.5"; InternalTransformer.FloatArg PrimFloat.neg_zero]
  = Raise ZeroDivisionError.
Proof.
  destruct (division_by_any_zero (InternalTransformer.Token "1.5")
              (Python.PyFloat 1.5%float) ltac:(vm_compute; reflexivity))
    as [Hzero _].
  apply (Hzero 1.5%float eq_refl).
Defined.

(** ** Aggregates *)

(** X10. Whatever the alias classes hold, apply_ibis_aggregation returns
    nothing but the mean, sum, maximum or minimum of the very column it was
    given, and that column is bound. The mean and the sum come only for a
    name of NUMERIC_AGGREGATIONS on a column ibis calls numeric: they are
    never taken of a non-numeric column. *)
Theorem aggregation_result_shape (A : TransformerBaseClass.AggregationAliases)
    (T : TransformerBaseClass.ColumnTyping) (c : Ibis) (agg : string) (r : Ibis) :
  TransformerBaseClass.apply_ibis_aggregation A T c agg = Ok r ->
  c <> PyNone
  /\ ((r = Mean c
       /\ agg ∈ TransformerBaseClass.NUMERIC_AGGREGATIONS A
       /\ agg ∈ TransformerBaseClass.AVG_AGGREGATIONS A
       /\ TransformerBaseClass.is_NumericColumn T c = true)
      \/ (r = Sum c
          /\ agg ∈ TransformerBaseClass.NUMERIC_AGGREGATIONS A
          /\ agg ∈ TransformerBaseClass.SUM_AGGREGATIONS A
          /\ TransformerBaseClass.is_NumericColumn T c = true)
      \/ (r = Max c /\ agg ∈ TransformerBaseClass.MAX_AGGREGATIONS A)
      \/ (r = Min c /\ agg ∈ TransformerBaseClass.MIN_AGGREGATIONS A)).
Proof.
  unfold TransformerBaseClass.apply_ibis_aggregation,
    TransformerBaseClass.max_min_or_raise.
  destruct c; simpl;
    repeat (case_bool_decide; simpl);
    repeat match goal with
      | |- context [TransformerBaseClass.is_NumericColumn ?T ?c] =>
          destruct (TransformerBaseClass.is_NumericColumn T c) eqn:?; simpl
      end;
    intros Hreturned; try discriminate; injection Hreturned as <-;
    (split; [discriminate |]); tauto.
Qed.

Lemma aggregation_result_shape_witness :
  TableColumn "FOREST_FIRES" "temp" Float64 <> PyNone
  /\ ((Mean (TableColumn "FOREST_FIRES" "temp" Float64)
       = Mean (TableColumn "FOREST_FIRES" "temp" Float64)
       /\ "avg" ∈ TransformerBaseClass.NUMERIC_AGGREGATIONS Fixture.aliases
       /\ "avg" ∈ TransformerBaseClass.AVG_AGGREGATIONS Fixture.aliases
       /\ TransformerBaseClass.is_NumericColumn Fixture.typing
            (TableColumn "FOREST_FIRES" "temp" Float64) = true)
      \/ (Mean (TableColumn "FOREST_FIRES" "temp" Float64)
          = Sum (TableColumn "FOREST_FIRES" "temp" Float64)
          /\ "avg" ∈ TransformerBaseClass.NUMERIC_AGGREGATIONS Fixture.aliases
          /\ "avg" ∈ TransformerBaseClass.SUM_AGGREGATIONS Fixture.aliases
          /\ TransformerBaseClass.is_NumericColumn Fixture.typing
               (TableColumn "FOREST_FIRES" "temp" Float64) = true)
      \/ (Mean (TableColumn "FOREST_FIRES" "temp" Float64)
          = Max (TableColumn "FOREST_FIRES" "temp" Float64)
          /\ "avg" ∈ TransformerBaseClass.MAX_AGGREGATIONS Fixture.aliases)
      \/ (Mean (TableColumn "FOREST_FIRES" "temp" Float64)
          = Min (TableColumn "FOREST_FIRES" "temp" Float64)
          /\ "avg" ∈ TransformerBaseClass.MIN_AGGREGATIONS Fixture.aliases)).
Proof.
  apply (aggregation_result_shape Fixture.aliases Fixture.typing
           (TableColumn "FOREST_FIRES" "temp" Float64) "avg"
           (Mean (TableColumn "FOREST_FIRES" "temp" Float64))).
  vm_compute; reflexivity.
Defined.

(** X11. An aggregate over the column [*] fails: column_name leaves that
    column unbound, so a name outside NUMERIC_AGGREGATIONS (max-like,
    min-like or of no class) raises AttributeError when the method is looked
    up on None, and a name of NUMERIC_AGGREGATIONS fails the assertion, None
    being no numeric column. *)
Theorem aggregate_over_star_fails (A : TransformerBaseClass.AggregationAliases)
    (T : TransformerBaseClass.ColumnTyping) (self : Transformer)
    (aggregation : string) :
  let star := TransformerBaseClass.column_name self ["*"] in
  star = Ok (Column_ "*")
  /\ ((lower aggregation ∉ TransformerBaseClass.NUMERIC_AGGREGATIONS A) ->
      (let* column := star in
       InternalTransformer.sql_aggregation A T aggregation column)
      = Raise AttributeError)
  /\ ((lower aggregation ∈ TransformerBaseClass.NUMERIC_AGGREGATIONS A) ->
      TransformerBaseClass.is_NumericColumn T PyNone = false ->
      (let* column := star in
       InternalTransformer.sql_aggregation A T aggregation column)
      = Raise AssertionError).
Proof.
  intros star. subst star. rewrite column_name_single.
  rewrite (set_column_value_star self (Column_ "*") eq_refl). simpl.
  split; [reflexivity |].
  unfold InternalTransformer.sql_aggregation,
    TransformerBaseClass.apply_ibis_aggregation,
    TransformerBaseClass.max_min_or_raise. simpl.
  split.
  - intros Hout. rewrite (bool_decide_eq_false_2 _ Hout).
    repeat case_bool_decide; reflexivity.
  - intros Hin Hnone. by rewrite (bool_decide_eq_true_2 _ Hin), Hnone.
Qed.

(** ** RANK and DENSE_RANK: failures and token builders *)

Section rank_more_facts.

Variable get_value : Value -> Ibis.

(** Tokens other than order tokens leave the ranking column as it is. *)
Lemma rank_fold_no_order (expressions : list InternalTransformer.RankToken)
    (order_list partition_list : list Ibis) (rank_column : Ibis) :
  (forall token, token ∈ expressions ->
     forall c asc, token <> InternalTransformer.OrderToken c asc) ->
  fold_left (InternalTransformer.rank_step get_value) expressions
    (order_list, partition_list, rank_column)
  = (order_list,
     partition_list
       ++ omap (fun token =>
                  match token with
                  | InternalTransformer.PartitionToken c => Some (value c)
                  | _ => None
                  end) expressions,
     rank_column).
Proof.
  revert partition_list.
  induction expressions as [| token expressions IH]; intros partition_list Hnone; simpl.
  - by rewrite app_nil_r.
  - assert (forall t, t ∈ expressions ->
              forall c asc, t <> InternalTransformer.OrderToken c asc) as Hrest
      by (intros t Ht; apply Hnone; by right).
    destruct token as [c asc | c | ty]; simpl.
    + exfalso.
      by apply (Hnone (InternalTransformer.OrderToken c asc) ltac:(by left) c asc).
    + rewrite IH by assumption. by rewrite <- app_assoc.
    + by apply IH.
Qed.

(** X12. A ranking call fails in three ways: with no child at all it raises
    IndexError; with a function name other than "rank" and "dense_rank" it
    fails the assertion, whatever the window specification holds; and with
    a window specification that has no ORDER BY entry there is no column to
    rank, so RANK() and DENSE_RANK() raise AttributeError on None. *)
Theorem rank_failures (expressions : list InternalTransformer.RankToken)
    (more : list (list InternalTransformer.RankToken)) (rank_function : string) :
  InternalTransformer.rank get_value [] rank_function = Raise IndexError
  /\ (rank_function <> "rank" -> rank_function <> "dense_rank" ->
      InternalTransformer.rank get_value (expressions :: more) rank_function
      = Raise AssertionError)
  /\ ((forall token, token ∈ expressions ->
         forall c asc, token <> InternalTransformer.OrderToken c asc) ->
      InternalTransformer.rank_expression get_value (expressions :: more)
        = Raise AttributeError
      /\ InternalTransformer.dense_rank_expression get_value (expressions :: more)
         = Raise AttributeError).
Proof.
  split; [reflexivity |]. split.
  - intros Hrank Hdense.
    unfold InternalTransformer.rank, InternalTransformer.get_rank_orders_and_partitions.
    simpl.
    destruct (fold_left _ _ _) as [[orders partitions] first_column]. simpl.
    unfold InternalTransformer.apply_rank_function.
    rewrite bool_decide_eq_false_2; [reflexivity |].
    rewrite !elem_of_cons, elem_of_nil. tauto.
  - intros Hnone.
    unfold InternalTransformer.rank_expression, InternalTransformer.dense_rank_expression,
      InternalTransformer.rank, InternalTransformer.get_rank_orders_and_partitions.
    simpl. rewrite (rank_fold_no_order expressions [] [] PyNone Hnone). simpl.
    split; reflexivity.
Qed.

(** What the loop reads off a run of order tokens and off a run of
    partition tokens. *)
Lemma omap_order_tokens (specs : list (Column * bool)) :
  omap (fun token =>
          match token with
          | InternalTransformer.OrderToken c asc =>
              Some (if asc then get_value (VColumn c) else Desc (get_value (VColumn c)))
          | _ => None
          end)
       ((fun s : Column * bool => InternalTransformer.OrderToken s.1 s.2) <$> specs)
  = (fun s : Column * bool =>
       if s.2 then get_value (VColumn s.1) else Desc (get_value (VColumn s.1)))
      <$> specs.
Proof.
  induction specs as [| [c asc] specs' IH]; [reflexivity |].
  rewrite !fmap_cons. cbn [omap list_omap]. by rewrite IH.
Qed.

Lemma omap_partition_tokens (partitions : list Column) :
  omap (fun token =>
          match token with
          | InternalTransformer.PartitionToken c => Some (value c)
          | _ => None
          end)
       (InternalTransformer.PartitionToken <$> partitions)
  = value <$> partitions.
Proof.
  induction partitions as [| c ps IH]; [reflexivity |].
  rewrite !fmap_cons. cbn [omap list_omap]. by rewrite IH.
Qed.

Lemma partition_tokens_not_order (partitions : list Column)
    (token : InternalTransformer.RankToken) :
  token ∈ InternalTransformer.PartitionToken <$> partitions ->
  forall c asc, token <> InternalTransformer.OrderToken c asc.
Proof. intros (c' & -> & _)%list_elem_of_fmap c asc. discriminate. Qed.

(** X13. The tokens order_asc, order_desc and partition_by build are read
    back by get_rank_orders_and_partitions as they were written: order_by
    lists the ordered columns in their order, wrapped in the descending
    marker for order_desc only; group_by lists the partition columns; the
    ranking column is the first ordered column. Whether the PARTITION BY
    tokens stand before or after the ORDER BY tokens makes no difference. *)
Theorem window_tokens_read_back (specs : list (Column * bool))
    (partitions : list Column) :
  let order_tokens := (fun s : Column * bool => InternalTransformer.OrderToken s.1 s.2) <$> specs in
  let partition_tokens := InternalTransformer.PartitionToken <$> partitions in
  let window :=
    ((fun s : Column * bool =>
        if s.2 then get_value (VColumn s.1) else Desc (get_value (VColumn s.1)))
       <$> specs,
     value <$> partitions,
     match specs with
     | [] => PyNone
     | s :: _ => get_value (VColumn s.1)
     end) in
  (forall s, head specs = Some s -> get_value (VColumn s.1) <> PyNone) ->
  (forall c,
     Handlers.order_asc [c] = Ok (InternalTransformer.OrderToken c true)
     /\ Handlers.order_desc [c] = Ok (InternalTransformer.OrderToken c false)
     /\ Handlers.partition_by [c] = Ok (InternalTransformer.PartitionToken c))
  /\ InternalTransformer.get_rank_orders_and_partitions get_value
       [Handlers.rank_form (order_tokens ++ partition_tokens)] = Ok window
  /\ InternalTransformer.get_rank_orders_and_partitions get_value
       [Handlers.rank_form (partition_tokens ++ order_tokens)] = Ok window.
Proof.
  intros order_tokens partition_tokens window Hbound.
  split; [intros c; repeat split |].
  assert (omap (fun token =>
                  match token with
                  | InternalTransformer.PartitionToken c => Some (value c)
                  | _ => None
                  end) order_tokens = []) as Hno_part.
  { apply omap_all_None. intros token (s & -> & _)%list_elem_of_fmap. reflexivity. }
  assert (omap (fun token =>
                  match token with
                  | InternalTransformer.OrderToken c asc =>
                      Some (if asc then get_value (VColumn c)
                            else Desc (get_value (VColumn c)))
                  | _ => None
                  end) partition_tokens = []) as Hno_order.
  { apply omap_all_None. intros token (s & -> & _)%list_elem_of_fmap. reflexivity. }
  unfold InternalTransformer.get_rank_orders_and_partitions, Handlers.rank_form.
  cbn [index lookup list_lookup bind].
  split; f_equal.
  - destruct (rank_fold_lists get_value (order_tokens ++ partition_tokens) [] [] PyNone)
      as [r Hfold].
    rewrite Hfold. rewrite !omap_app, Hno_part, Hno_order.
    unfold order_tokens at 1, partition_tokens at 1.
    rewrite omap_order_tokens, omap_partition_tokens, app_nil_r. cbn [app].
    subst window. f_equal.
    apply (f_equal snd) in Hfold. cbn [snd] in Hfold. rewrite <- Hfold.
    destruct specs as [| [c asc] specs'].
    + rewrite rank_fold_no_order; [reflexivity |].
      intros token Hin. by apply (partition_tokens_not_order partitions).
    + exact (rank_fold_first_order get_value []
               (((fun s : Column * bool => InternalTransformer.OrderToken s.1 s.2)
                   <$> specs') ++ partition_tokens) c asc [] []
               ltac:(intros token Hin; by apply elem_of_nil in Hin)
               (Hbound (c, asc) eq_refl)).
  - destruct (rank_fold_lists get_value (partition_tokens ++ order_tokens) [] [] PyNone)
      as [r Hfold].
    rewrite Hfold. rewrite !omap_app, Hno_part, Hno_order.
    unfold order_tokens at 1, partition_tokens at 1.
    rewrite omap_order_tokens, omap_partition_tokens, app_nil_r. cbn [app].
    subst window. f_equal.
    apply (f_equal snd) in Hfold. cbn [snd] in Hfold. rewrite <- Hfold.
    destruct specs as [| [c asc] specs'].
    + rewrite rank_fold_no_order; [reflexivity |].
      intros token Hin. subst order_tokens. rewrite fmap_nil, app_nil_r in Hin.
      by apply (partition_tokens_not_order partitions).
    + pose proof (rank_fold_first_order get_value partition_tokens
                    ((fun s : Column * bool => InternalTransformer.OrderToken s.1 s.2)
                       <$> specs') c asc [] []) as Hfirst.
      apply Hfirst; [| exact (Hbound (c, asc) eq_refl)].
      intros token Hin.
      pose proof (partition_tokens_not_order partitions token Hin) as Hnot.
      destruct token as [c' a' | c' | ty]; [| reflexivity | reflexivity].
      exfalso. by apply (Hnot c' a').
Qed.

End rank_more_facts.

Lemma window_tokens_read_back_witness :
  InternalTransformer.get_rank_orders_and_partitions Fixture.get_value
    [Handlers.rank_form
       [InternalTransformer.PartitionToken Fixture.month;
        InternalTransformer.OrderToken Fixture.wind false;
        InternalTransformer.OrderToken Fixture.temp true]]
  = Ok ([Desc (TableColumn "FOREST_FIRES" "wind" Float64);
         TableColumn "FOREST_FIRES" "temp" Float64],
        [TableColumn "FOREST_FIRES" "month" String_],
        TableColumn "FOREST_FIRES" "wind" Float64).
Proof.
  apply (window_tokens_read_back Fixture.get_value
           [(Fixture.wind, false); (Fixture.temp, true)] [Fixture.month]).
  intros s [= <-]. discriminate.
Defined.

(** ** CASE: items after the ELSE branch *)

Section case_more_facts.

Variable get_value : Value -> Ibis.

Lemma case_fold_raise (items : list InternalTransformer.WhenExpression)
    (e : Exception) :
  fold_left (InternalTransformer.case_step get_value) items (Raise e) = Raise e.
Proof. induction items as [| item items IH]; [reflexivity | exact IH]. Qed.

(** X14. The ELSE branch ends the builder, so it has to come last: a CASE
    whose list holds any item after an ELSE value, a further when/then pair
    or a second ELSE, raises AttributeError, whatever follows. when_then
    makes the pair from its first two children and raises IndexError with
    fewer. *)
Theorem case_item_after_else_fails (pairs : list (Value * Value))
    (else_value : Value) (item : InternalTransformer.WhenExpression)
    (rest : list InternalTransformer.WhenExpression) :
  InternalTransformer.case_expression get_value
    (((fun p : Value * Value => InternalTransformer.WhenThen p.1 p.2) <$> pairs)
       ++ InternalTransformer.ElseValue else_value :: item :: rest)
  = Raise AttributeError
  /\ (forall condition result_value more,
        Handlers.when_then (condition :: result_value :: more)
        = Ok (InternalTransformer.WhenThen condition result_value))
  /\ (forall values, (length values < 2)%nat ->
        Handlers.when_then values = Raise IndexError).
Proof.
  split; [| split].
  - unfold InternalTransformer.case_expression.
    rewrite case_fold_whens. cbn [fold_left].
    assert (InternalTransformer.case_step get_value
              (InternalTransformer.case_step get_value
                 (Ok (CaseBuilder
                        ([] ++ ((fun p : Value * Value => (get_value p.1, get_value p.2))
                                  <$> pairs)) None))
                 (InternalTransformer.ElseValue else_value)) item
            = Raise AttributeError) as ->
      by (destruct item; reflexivity).
    by rewrite case_fold_raise.
  - reflexivity.
  - intros [| v [| w values]] Hlen; simpl in Hlen; try reflexivity; lia.
Qed.

End case_more_facts.

(** ** Comparisons: how many operands *)

Section comparison_more_facts.

Variable get_value : Value -> Ibis.
Variable richcmp : CmpOp -> Value -> Value -> Ibis.

(** X15. The six comparison handlers need two operands (IndexError with
    fewer) and ignore any beyond the second. BETWEEN looks the method up on
    the tested operand before it reads the bounds: an unbound operand raises
    AttributeError even when bounds are missing, a bound one raises
    IndexError with fewer than two bounds, and bounds beyond the second are
    ignored. IN and NOT IN raise IndexError on no operand at all and accept
    an empty list of values. *)
Theorem comparison_operand_counts (op : CmpOp) (expressions : list Value) :
  ((length expressions < 2)%nat ->
   InternalTransformer.compare_with richcmp op expressions = Raise IndexError)
  /\ (forall a b rest, expressions = a :: b :: rest ->
        InternalTransformer.compare_with richcmp op expressions
        = InternalTransformer.compare_with richcmp op [a; b])
  /\ InternalTransformer.between [] = Raise IndexError
  /\ (forall main bounds, expressions = main :: bounds ->
        (Value_value main = PyNone ->
         InternalTransformer.between expressions = Raise AttributeError
         /\ InternalTransformer.in_expr get_value expressions = Raise AttributeError
         /\ InternalTransformer.not_in_expr get_value expressions = Raise AttributeError)
        /\ (Value_value main <> PyNone -> (length bounds < 2)%nat ->
            InternalTransformer.between expressions = Raise IndexError)
        /\ (forall lower_bound upper_bound rest,
              bounds = lower_bound :: upper_bound :: rest ->
              InternalTransformer.between expressions
              = InternalTransformer.between [main; lower_bound; upper_bound])
        /\ (Value_value main <> PyNone -> bounds = [] ->
            InternalTransformer.in_expr get_value expressions
              = Ok (ValueWithPlan_ (IsIn (Value_value main) []))
            /\ InternalTransformer.not_in_expr get_value expressions
               = Ok (ValueWithPlan_ (NotIn (Value_value main) []))))
  /\ InternalTransformer.in_expr get_value [] = Raise IndexError
  /\ InternalTransformer.not_in_expr get_value [] = Raise IndexError.
Proof.
  split; [| split; [| split; [reflexivity | split; [| split; reflexivity]]]].
  - intros Hlen. destruct expressions as [| a [| b rest]]; simpl in Hlen;
      try reflexivity; lia.
  - intros a b rest ->. reflexivity.
  - intros main bounds ->.
    unfold InternalTransformer.between, InternalTransformer.in_expr,
      InternalTransformer.not_in_expr. cbn [index lookup list_lookup bind drop].
    split; [| split; [| split]].
    + intros ->. auto.
    + intros Hbound Hlen. rewrite (receiver_Ok _ Hbound).
      destruct bounds as [| lo [| hi rest]]; simpl in Hlen; try reflexivity; lia.
    + intros lo hi rest ->. reflexivity.
    + intros Hbound ->. rewrite (receiver_Ok _ Hbound). auto.
Qed.

End comparison_more_facts.

(** ** GROUP BY *)

(** X16. The key of a GROUP BY entry is the name as the query spells it:
    whatever column_name resolved the child to, group_by returns the token
    type "group" with the joined name parts, neither lower-cased nor
    replaced by the name the catalog recorded; with no child it raises
    IndexError. *)
Theorem group_key_is_query_spelling (self : Transformer)
    (name_list_format : list string) (resolved : Column) :
  TransformerBaseClass.column_name self name_list_format = Ok resolved ->
  Handlers.group_by [resolved] = Ok ("group", String.concat "" name_list_format)
  /\ Handlers.group_by [] = Raise IndexError.
Proof.
  unfold TransformerBaseClass.column_name. intros Hresolved.
  split; [| reflexivity]. unfold Handlers.group_by. simpl. do 2 f_equal.
  destruct (decide (String.concat "" name_list_format = "*")) as [Hstar | Hstar].
  - rewrite (set_column_value_star self (Column_ _) Hstar) in Hresolved.
    by injection Hresolved as <-.
  - apply set_column_value_Ok_inv in Hresolved
      as (t & df & names & true_name & ty & _ & _ & _ & _ & _ & ->);
      [reflexivity | assumption].
Qed.

Lemma group_key_is_query_spelling_witness :
  Handlers.group_by
    [mkColumn "rh" (Some "FOREST_FIRES") (TableColumn "FOREST_FIRES" "RH" Int64)
              None None]
  = Ok ("group", "rh").
Proof.
  apply (group_key_is_query_spelling Fixture.base_transformer ["r"; "h"]).
  vm_compute; reflexivity.
Defined.
